(** * The internal Paystack webhook of Avenue Fashion

    A shallow embedding of [src/app/api/webhooks/internal/paystack/route.ts]:
    the single [POST] handler that authenticates a relayed payment event,
    advances the matching order and clears the buyer's cart.

    The handler talks to collaborators that live outside the file (the
    crypto and JSON runtime, the Mongoose models, the notification
    service).  The pure ones are parameters of the development; the
    effectful ones act on an explicit system state and may throw, as
    decided by a per-request environment. *)

From Stdlib Require Import ZArith PrimFloat Ascii.
From stdpp Require Import base option list strings.

Local Open Scope string_scope.
Local Open Scope list_scope.

(** ** JavaScript values, as far as the handler inspects them *)

#[warnings="-register-all"] Inductive JsVal : Type :=
  | JUndefined
  | JNull
  | JBool (b : bool)
  | JNum (f : float)
  | JStr (s : string)
  | JArr (elems : list JsVal)
  | JObj (fields : list (string * JsVal)).

(** Own-property lookup in an object literal; a key that is not there
    reads as [undefined]. *)
Fixpoint own_property (k : string) (fields : list (string * JsVal)) : JsVal :=
  match fields with
  | [] => JUndefined
  | (k', v) :: rest => if String.eqb k k' then v else own_property k rest
  end.

Definition nullish (v : JsVal) : bool :=
  match v with
  | JUndefined | JNull => true
  | _ => false
  end.

(** [v.k] for a receiver that is not nullish.  The handler only reads the
    keys [event], [data], [status], [metadata], [orderId] and [reference],
    none of which is inherited from a prototype, so on primitives and
    arrays the read yields [undefined]. *)
Definition member (v : JsVal) (k : string) : JsVal :=
  match v with
  | JObj fields => own_property k fields
  | _ => JUndefined
  end.

(** [v === 'lit'] against a string literal. *)
Definition strict_eq_str (v : JsVal) (lit : string) : bool :=
  match v with
  | JStr s => String.eqb s lit
  | _ => false
  end.

(** ToBoolean, the test behind [!v]. *)
Definition truthy (v : JsVal) : bool :=
  match v with
  | JUndefined | JNull => false
  | JBool b => b
  | JNum f => negb (PrimFloat.is_zero f || PrimFloat.is_nan f)
  | JStr s => negb (String.eqb s "")
  | JArr _ | JObj _ => true
  end.

(** Whether the object literal has an own property [k]. *)
Definition has_own (k : string) (fields : list (string * JsVal)) : bool :=
  existsb (λ kv, String.eqb k kv.1) fields.

(** Whether the conversion to a string in a template literal throws.  For
    an object the conversion tries [toString], then [valueOf]: an own
    [toString] that comes from JSON is not callable and [valueOf] never
    yields a primitive, which is a TypeError; without an own [toString]
    the inherited one answers.  An array joins its elements, converting
    those that are neither [undefined] nor [null]. *)
Fixpoint to_string_throws (v : JsVal) : bool :=
  match v with
  | JObj fields => has_own "toString" fields
  | JArr elems => existsb to_string_throws elems
  | _ => false
  end.

(** [v?.k] *)
Definition optional_member (v : JsVal) (k : string) : JsVal :=
  if nullish v then JUndefined else member v k.

(** ** Persistent aggregates *)

Module TimelineEntry.
(** Modelled from the spec: the timeline entry type of [@/types] is not
    among the sources; the fields are those the handler writes. *)
Record t : Type := mk {
  title : string;
  description : string;
  status : string;
  timestamp : Z
}.
End TimelineEntry.

Module Payment.
(** Modelled from the spec: the payment sub-document of [IOrder]
    ([@/types]) is not among the sources.  [transactionId] holds whatever
    value the handler assigns to it. *)
Record t : Type := mk {
  status : string;
  transactionId : JsVal
}.
End Payment.

Module Order.
(** Modelled from the spec: [IOrder] ([@/types]) is not among the
    sources; the fields are those the handler reads or writes. *)
Record t : Type := mk {
  orderId : string;
  user : string;
  payment : Payment.t;
  status : string;
  timeline : list TimelineEntry.t
}.
End Order.

Module Cart.
(** Modelled from the spec: the [Cart] model ([@/models/Cart]) is not
    among the sources. *)
Record t : Type := mk {
  user : string;
  items : list JsVal
}.
End Cart.

(** The payload handed to [sendNotificationToUser]. *)
Record Notification : Type := {
  recipient : string;
  n_title : string;
  n_body : string;
  n_url : string
}.

(** ** System state *)

(** What outlives a request: the two collections (a document is
    identified by its position) and the notifications delivered. *)
Record World : Type := {
  orders : list Order.t;
  carts : list Cart.t;
  outbox : list Notification
}.

(** Calls made to the collaborators, in program order. *)
Inductive Call : Type :=
  | ConnectDB
  | OrderFindOne (filter : JsVal)
  | OrderSave (doc : nat)
  | SendNotification (n : Notification)
  | CartFindOne (owner : string)
  | CartSave (doc : nat).

Record Sys : Type := {
  world : World;
  calls : list Call
}.

(** ** Requests, responses, environment *)

Record Request : Type := {
  body : string;               (* [await req.text()] *)
  signature : option string    (* header [x-internal-signature], [null] if absent *)
}.

Record Response : Type := {
  code : nat;
  payload : list (string * string)
}.

Definition json (payload : list (string * string)) (code : nat) : Response :=
  {| code := code; payload := payload |}.

(** How a run of the handler ends. *)
Inductive Outcome : Type :=
  | Responded (r : Response)
  | Uncaught.

(** Per-request environment: the configured secret, which collaborator
    calls succeed, and the clock. *)
Record Env : Type := {
  secret : option string;      (* [process.env.AVENUE_FASHION_INTERNAL_SECRET] *)
  connectDB_ok : bool;
  order_findOne_ok : bool;
  order_save_ok : bool;
  notification_ok : bool;
  cart_findOne_ok : bool;
  cart_save_ok : bool;
  now : Z                      (* [new Date()] *)
}.

(** ** A monad for statements: state, exceptions and early [return] *)

Inductive Completion (A : Type) : Type :=
  | Normal (a : A)
  | Return (r : Response)
  | Throw.
Arguments Normal {A} a.
Arguments Return {A} r.
Arguments Throw {A}.

Definition M (A : Type) : Type := Sys → Sys * Completion A.

Definition ret {A} (a : A) : M A := λ s, (s, Normal a).
Definition return_ {A} (r : Response) : M A := λ s, (s, Return r).
Definition throw {A} : M A := λ s, (s, Throw).

Definition bind {A B} (m : M A) (k : A → M B) : M B :=
  λ s, match m s with
       | (s', Normal a) => k a s'
       | (s', Return r) => (s', Return r)
       | (s', Throw) => (s', Throw)
       end.

#[global] Instance M_ret : MRet M := @ret.
#[global] Instance M_bind : MBind M := λ A B k m, bind m k.

(** [try { m } catch { h }]: a [return] inside [m] leaves the function. *)
Definition try_catch {A} (m : M A) (h : M A) : M A :=
  λ s, match m s with
       | (s', Throw) => h s'
       | r => r
       end.

Definition call (c : Call) : M unit :=
  λ s, ({| world := world s; calls := calls s ++ [c] |}, Normal tt).

Definition get_world : M World := λ s, (s, Normal (world s)).

Definition put_world (w : World) : M unit :=
  λ s, ({| world := w; calls := calls s |}, Normal tt).

(** A collaborator call that the environment may make throw. *)
Definition guarded (ok : bool) : M unit := if ok then ret tt else throw.

(** [v.k], throwing a TypeError on [undefined] and [null]. *)
Definition prop (v : JsVal) (k : string) : M JsVal :=
  if nullish v then throw else ret (member v k).

(** A log line whose template literal interpolates [v]: nothing but the
    conversion of [v] can be observed. *)
Definition interpolate (v : JsVal) : M unit :=
  if to_string_throws v then throw else ret tt.

Section Handler.

(** [crypto.createHmac('sha256', key).update(msg).digest('hex')] *)
Variable hmac_sha256_hex : string → string → string.

(** [JSON.parse]; [None] stands for the SyntaxError it throws. *)
Variable JSON_parse : string → option JsVal.

(** How the [orderId] path of the order schema casts a filter value that
    is not a string; [None] stands for the CastError. *)
Variable cast_orderId : JsVal → option string.

Definition filter_key (v : JsVal) : option string :=
  match v with
  | JStr s => Some s
  | _ => cast_orderId v
  end.

Definition connectDB (env : Env) : M unit :=
  call ConnectDB ;; guarded (connectDB_ok env).

(** [Order.findOne({ orderId })]: the first document with that id. *)
Definition Order_findOne (env : Env) (filter : JsVal) : M (option (nat * Order.t)) :=
  call (OrderFindOne filter) ;;
  guarded (order_findOne_ok env) ;;
  match filter_key filter with
  | None => throw
  | Some k =>
      w ← get_world ;
      ret (list_find (λ o, Order.orderId o = k) (orders w))
  end.

(** [order.save()] for the document at position [doc]. *)
Definition Order_save (env : Env) (doc : nat) (o : Order.t) : M unit :=
  call (OrderSave doc) ;;
  guarded (order_save_ok env) ;;
  w ← get_world ;
  put_world {| orders := <[doc := o]> (orders w); carts := carts w; outbox := outbox w |}.

Definition sendNotificationToUser (env : Env) (n : Notification) : M unit :=
  call (SendNotification n) ;;
  guarded (notification_ok env) ;;
  w ← get_world ;
  put_world {| orders := orders w; carts := carts w; outbox := outbox w ++ [n] |}.

(** [Cart.findOne({ user })] *)
Definition Cart_findOne (env : Env) (owner : string) : M (option (nat * Cart.t)) :=
  call (CartFindOne owner) ;;
  guarded (cart_findOne_ok env) ;;
  w ← get_world ;
  ret (list_find (λ c, Cart.user c = owner) (carts w)).

Definition Cart_save (env : Env) (doc : nat) (c : Cart.t) : M unit :=
  call (CartSave doc) ;;
  guarded (cart_save_ok env) ;;
  w ← get_world ;
  put_world {| orders := orders w; carts := <[doc := c]> (carts w); outbox := outbox w |}.

(** The parts of the event envelope the handler reads. *)
Definition event_kind (event : JsVal) : JsVal := member event "event".
Definition event_data (event : JsVal) : JsVal := member event "data".
Definition event_status (event : JsVal) : JsVal := member (event_data event) "status".
Definition event_metadata (event : JsVal) : JsVal := member (event_data event) "metadata".
Definition event_orderId (event : JsVal) : JsVal := member (event_metadata event) "orderId".
Definition event_reference (event : JsVal) : JsVal := member (event_data event) "reference".

(** Position of the entry that [timeline.find(e => e.title === 'Order
    Confirmed')] returns: the first one with that title. *)
Definition confirmed_index (tl : list TimelineEntry.t) : option nat :=
  fst <$> list_find (λ e, TimelineEntry.title e = "Order Confirmed") tl.

(** [confirmedEvent.status = 'completed'] *)
Definition mark_completed (e : TimelineEntry.t) : TimelineEntry.t :=
  TimelineEntry.mk (TimelineEntry.title e) (TimelineEntry.description e)
                   "completed" (TimelineEntry.timestamp e).

(** Lines 68-71: the entry found, if any, is updated in place. *)
Definition confirm (tl : list TimelineEntry.t) : list TimelineEntry.t :=
  match list_find (λ e, TimelineEntry.title e = "Order Confirmed") tl with
  | Some (i, confirmedEvent) => <[i := mark_completed confirmedEvent]> tl
  | None => tl
  end.

(** Lines 74-79. *)
Definition processing_entry (at_ : Z) : TimelineEntry.t :=
  TimelineEntry.mk "Processing"
    "We are preparing your items for shipment at the warehouse."
    "current" at_.

(** Lines 63-79: the in-memory update of the order document. *)
Definition apply_charge (env : Env) (reference : JsVal) (order : Order.t) : Order.t :=
  Order.mk (Order.orderId order)
           (Order.user order)
           (Payment.mk "Completed" reference)
           "Processing"
           (confirm (Order.timeline order) ++ [processing_entry (now env)]).

(** Lines 86-90. *)
Definition payment_notification (order : Order.t) : Notification :=
  {| recipient := Order.user order;
     n_title := "Payment Received! 💳";
     n_body := "We've successfully received payment for your order #"
               +:+ Order.orderId order +:+ ". It's now being processed.";
     n_url := "/me/orders/" +:+ Order.orderId order |}.

Definition ok_response : Response := json [("status", "ok")] 200.

(** Lines 42-105, the body of the [try]. *)
Definition process_charge (env : Env) (data metadata : JsVal) : M unit :=
  connectDB env ;;
  orderId ← prop metadata "orderId" ;
  if negb (truthy orderId) then
    return_ (json [("status", "error"); ("message", "Missing orderId")] 400)
  else
    found ← Order_findOne env orderId ;
    match found with
    | None =>
        interpolate orderId ;;                                   (* line 52 *)
        return_ (json [("status", "error"); ("message", "Order not found")] 404)
    | Some (doc, order) =>
        if String.eqb (Payment.status (Order.payment order)) "Completed" then
          interpolate orderId ;;                                 (* line 58 *)
          return_ ok_response
        else
          reference ← prop data "reference" ;
          let order := apply_charge env reference order in
          Order_save env doc order ;;
          try_catch (sendNotificationToUser env (payment_notification order))
                    (ret tt) ;;
          userCart ← Cart_findOne env (Order.user order) ;
          match userCart with
          | Some (cdoc, cart) =>
              Cart_save env cdoc (Cart.mk (Cart.user cart) []) ;;
              interpolate orderId                                (* line 102 *)
          | None => ret tt
          end ;;
          interpolate orderId                                    (* line 105 *)
    end.

(** Lines 107-110: the log line interpolates [metadata?.orderId] before
    the response is built. *)
Definition on_error (metadata : JsVal) : M unit :=
  interpolate (optional_member metadata "orderId") ;;
  return_ (json [("message", "Internal server error while updating order.")] 500).

Definition parse (requestBody : string) : M JsVal :=
  match JSON_parse requestBody with
  | Some v => ret v
  | None => throw
  end.

(** Lines 37-112: what is done with the decoded event. *)
Definition handle_event (env : Env) (event : JsVal) : M unit :=
  kind ← prop event "event" ;
  if strict_eq_str kind "charge.success" then
    data ← prop event "data" ;
    status ← prop data "status" ;
    metadata ← prop data "metadata" ;
    if strict_eq_str status "success" then
      try_catch (process_charge env data metadata) (on_error metadata)
    else ret tt
  else ret tt.

(** Lines 16-116. *)
Definition handler (env : Env) (req : Request) : M Empty_set :=
  match secret env with
  | None | Some "" =>
      return_ (json [("message", "Server configuration error.")] 500)
  | Some internalSecret =>
      let requestBody := body req in
      let internalSignature := signature req in
      let expectedSignature := hmac_sha256_hex internalSecret requestBody in
      if negb (bool_decide (Some expectedSignature = internalSignature)) then
        return_ (json [("message", "Forbidden: Invalid signature.")] 403)
      else
        event ← parse requestBody ;
        handle_event env event ;;
        return_ ok_response
  end.

(** Running the handler on a request. *)
Definition POST (env : Env) (req : Request) (s : Sys) : Sys * Outcome :=
  match handler env req s with
  | (s', Normal a) => match a with end
  | (s', Return r) => (s', Responded r)
  | (s', Throw) => (s', Uncaught)
  end.

(** ** Vocabulary of the statements *)

(** The request carries the digest of its body under the configured,
    non-empty secret. *)
Definition correctly_signed (env : Env) (req : Request) : Prop :=
  ∃ k, secret env = Some k ∧ k ≠ "" ∧
       signature req = Some (hmac_sha256_hex k (body req)).

(** The request is correctly signed and its body decodes to [event]. *)
Definition delivers (env : Env) (req : Request) (event : JsVal) : Prop :=
  correctly_signed env req ∧ JSON_parse (body req) = Some event.

(** A charge.success event with status success. *)
Definition charge_success (event : JsVal) : Prop :=
  event_kind event = JStr "charge.success" ∧ event_status event = JStr "success".

(** [Order.findOne] with filter value [v] yields the document [order] at
    position [doc]. *)
Definition finds (w : World) (v : JsVal) (doc : nat) (order : Order.t) : Prop :=
  ∃ k, filter_key v = Some k ∧
       list_find (λ o, Order.orderId o = k) (orders w) = Some (doc, order).

(** Number of timeline entries whose status is 'current'. *)
Definition current_count (tl : list TimelineEntry.t) : nat :=
  length (filter (λ e, TimelineEntry.status e = "current") tl).

End Handler.

(** ** Vocabulary of the further statements *)

(** What the caller gets, depending on how the [try] of lines 41-110 ends:
    the [catch] answers 500 unless its own log line throws. *)
Definition answer (metadata : JsVal) (c : Completion ()) : Outcome :=
  match c with
  | Normal _ => Responded ok_response
  | Return r => Responded r
  | Throw =>
      if to_string_throws (optional_member metadata "orderId") then Uncaught
      else Responded
             (json [("message", "Internal server error while updating order.")] 500)
  end.

(** The environment in which the notification service behaves as [ok]
    says, everything else being as in [env]. *)
Definition set_notification (ok : bool) (env : Env) : Env :=
  {| secret := secret env;
     connectDB_ok := connectDB_ok env;
     order_findOne_ok := order_findOne_ok env;
     order_save_ok := order_save_ok env;
     notification_ok := ok;
     cart_findOne_ok := cart_findOne_ok env;
     cart_save_ok := cart_save_ok env;
     now := now env |}.

(** A run without the notifications delivered. *)
Definition apart_from_outbox (r : Sys * Completion ()) :
    list Order.t * list Cart.t * list Call * Completion () :=
  (orders (world r.1), carts (world r.1), calls r.1, r.2).

(** ** Fixtures

    Concrete collaborators, requests and stores on which the statements
    below are exercised.  The statements themselves hold for every digest
    function, every decoder and every cast. *)

Module Fixture.

Definition quote_mark : string := String "034"%char "".
Definition quoted (s : string) : string := quote_mark +:+ s +:+ quote_mark.

(** [{"event":"charge.success","data":{"status":"success","reference":"TXN1","metadata":{"orderId":ID}}}] *)
Definition charge_body (id : string) : string :=
  "{" +:+ quoted "event" +:+ ":" +:+ quoted "charge.success" +:+ ","
      +:+ quoted "data" +:+ ":{" +:+ quoted "status" +:+ ":" +:+ quoted "success" +:+ ","
      +:+ quoted "reference" +:+ ":" +:+ quoted "TXN1" +:+ ","
      +:+ quoted "metadata" +:+ ":{" +:+ quoted "orderId" +:+ ":" +:+ quoted id +:+ "}}}".

Definition charge_event (id : string) : JsVal :=
  JObj [("event", JStr "charge.success");
        ("data", JObj [("status", JStr "success");
                       ("reference", JStr "TXN1");
                       ("metadata", JObj [("orderId", JStr id)])])].

(** [{"event":"charge.success"}] *)
Definition no_data_body : string :=
  "{" +:+ quoted "event" +:+ ":" +:+ quoted "charge.success" +:+ "}".
Definition no_data_event : JsVal := JObj [("event", JStr "charge.success")].

(** [{"event":"charge.success","data":{"status":"success"}}] *)
Definition no_metadata_body : string :=
  "{" +:+ quoted "event" +:+ ":" +:+ quoted "charge.success" +:+ ","
      +:+ quoted "data" +:+ ":{" +:+ quoted "status" +:+ ":" +:+ quoted "success" +:+ "}}".
Definition no_metadata_event : JsVal :=
  JObj [("event", JStr "charge.success"); ("data", JObj [("status", JStr "success")])].

(** [{"event":"charge.failed","data":{"status":"failed"}}] *)
Definition failed_body : string :=
  "{" +:+ quoted "event" +:+ ":" +:+ quoted "charge.failed" +:+ ","
      +:+ quoted "data" +:+ ":{" +:+ quoted "status" +:+ ":" +:+ quoted "failed" +:+ "}}".
Definition failed_event : JsVal :=
  JObj [("event", JStr "charge.failed"); ("data", JObj [("status", JStr "failed")])].

(** Text that is not JSON. *)
Definition malformed_body : string := "{not json".

(** [JSON.parse] on the bodies above; any other text is taken to be
    ill-formed, as [malformed_body] is. *)
Definition JSON_parse (text : string) : option JsVal :=
  if String.eqb text (charge_body "ORD1") then Some (charge_event "ORD1")
  else if String.eqb text (charge_body "") then Some (charge_event "")
  else if String.eqb text no_data_body then Some no_data_event
  else if String.eqb text no_metadata_body then Some no_metadata_event
  else if String.eqb text failed_body then Some failed_event
  else if String.eqb text "null" then Some JNull
  else None.

(** A stand-in for the keyed digest. *)
Definition digest (key msg : string) : string := key +:+ "/" +:+ msg.

(** A cast that rejects every filter value that is not a string. *)
Definition cast_orderId (v : JsVal) : option string := None.

Definition env : Env :=
  {| secret := Some "s3cret";
     connectDB_ok := true; order_findOne_ok := true; order_save_ok := true;
     notification_ok := true; cart_findOne_ok := true; cart_save_ok := true;
     now := 1700000000000 |}.

(** As [env], but the cart collection cannot be read. *)
Definition env_cart_down : Env :=
  {| secret := Some "s3cret";
     connectDB_ok := true; order_findOne_ok := true; order_save_ok := true;
     notification_ok := true; cart_findOne_ok := false; cart_save_ok := true;
     now := 1700000000000 |}.

Definition signed_request (text : string) : Request :=
  {| body := text; signature := Some (digest "s3cret" text) |}.

Definition placed : TimelineEntry.t :=
  TimelineEntry.mk "Order Placed" "We have received your order." "completed" 1699999000000.
Definition confirmed : TimelineEntry.t :=
  TimelineEntry.mk "Order Confirmed" "Awaiting payment." "current" 1699999000000.
Definition awaiting : TimelineEntry.t :=
  TimelineEntry.mk "Payment Pending" "Awaiting payment." "current" 1699999000000.

Definition order_with (payment_status : string) (tl : list TimelineEntry.t) : Order.t :=
  Order.mk "ORD1" "U1" (Payment.mk payment_status JUndefined) "Confirmed" tl.

Definition cart : Cart.t := Cart.mk "U1" [JObj [("product", JStr "P1")]].

Definition store (o : Order.t) : Sys :=
  {| world := {| orders := [o]; carts := [cart]; outbox := [] |}; calls := [] |}.

(** A store whose order ORD1 awaits payment. *)
Definition pending_store : Sys := store (order_with "Pending" [placed; confirmed]).

(** A store whose order ORD1 is already paid. *)
Definition settled_store : Sys := store (order_with "Completed" [placed; confirmed]).

(** A store whose order ORD1 awaits payment and whose timeline has a
    current entry under another title. *)
Definition awaiting_store : Sys := store (order_with "Pending" [awaiting]).

Definition charge_request : Request := signed_request (charge_body "ORD1").

(** The handler with the fixture collaborators. *)
Definition run : Env → Request → Sys → Sys * Outcome :=
  POST digest JSON_parse cast_orderId.

(** The timeline stored for the document at position [doc]. *)
Definition timeline_at (s : Sys) (doc : nat) : option (list TimelineEntry.t) :=
  Order.timeline <$> orders (world s) !! doc.

(** As [env], with an empty secret. *)
Definition env_unconfigured : Env :=
  {| secret := Some "";
     connectDB_ok := true; order_findOne_ok := true; order_save_ok := true;
     notification_ok := true; cart_findOne_ok := true; cart_save_ok := true;
     now := 1700000000000 |}.

(** As [env], but the database cannot be reached. *)
Definition env_db_down : Env :=
  {| secret := Some "s3cret";
     connectDB_ok := false; order_findOne_ok := true; order_save_ok := true;
     notification_ok := true; cart_findOne_ok := true; cart_save_ok := true;
     now := 1700000000000 |}.

(** As [env], but orders cannot be saved. *)
Definition env_save_down : Env :=
  {| secret := Some "s3cret";
     connectDB_ok := true; order_findOne_ok := true; order_save_ok := false;
     notification_ok := true; cart_findOne_ok := true; cart_save_ok := true;
     now := 1700000000000 |}.

(** The charge request, signed under the empty key. *)
Definition request_signed_with_empty_key : Request :=
  {| body := charge_body "ORD1"; signature := Some (digest "" (charge_body "ORD1")) |}.

(** A store without orders. *)
Definition empty_store : Sys :=
  {| world := {| orders := []; carts := [cart]; outbox := [] |}; calls := [] |}.

(** An order id given as a document, [{"_id":"ORD1","toString":null}]: it
    has no string conversion. *)
Definition document_id : JsVal := JObj [("_id", JStr "ORD1"); ("toString", JNull)].

(** The charge event whose [metadata.orderId] is that document. *)
Definition document_body : string :=
  "{" +:+ quoted "event" +:+ ":" +:+ quoted "charge.success" +:+ ","
      +:+ quoted "data" +:+ ":{" +:+ quoted "status" +:+ ":" +:+ quoted "success" +:+ ","
      +:+ quoted "reference" +:+ ":" +:+ quoted "TXN1" +:+ ","
      +:+ quoted "metadata" +:+ ":{" +:+ quoted "orderId" +:+ ":{"
      +:+ quoted "_id" +:+ ":" +:+ quoted "ORD1" +:+ ","
      +:+ quoted "toString" +:+ ":null}}}}".

Definition document_event : JsVal :=
  JObj [("event", JStr "charge.success");
        ("data", JObj [("status", JStr "success");
                       ("reference", JStr "TXN1");
                       ("metadata", JObj [("orderId", document_id)])])].

Definition document_request : Request := signed_request document_body.

(** [JSON_parse], extended to [document_body]. *)
Definition JSON_parse_document (text : string) : option JsVal :=
  if String.eqb text document_body then Some document_event else JSON_parse text.

(** A cast that, as Mongoose's string cast does for documents, takes the
    [_id] of a value that has a string one, and rejects the rest. *)
Definition cast_document (v : JsVal) : option string :=
  match member v "_id" with
  | JStr id => Some id
  | _ => None
  end.

(** The handler with these collaborators. *)
Definition run_document : Env → Request → Sys → Sys * Outcome :=
  POST digest JSON_parse_document cast_document.

(** A store whose order ORD1 awaits payment and whose timeline has two
    entries titled 'Order Confirmed'. *)
Definition twice_confirmed_store : Sys :=
  store (order_with "Pending" [confirmed; confirmed]).

End Fixture.

(** ** Running the handler *)

(** Unfolds the statement monad and the collaborator calls, leaving the
    tests on the environment and on the data in place. *)
Ltac mrun :=
  cbv beta iota zeta delta
    [mbind mret M_bind M_ret bind ret return_ throw try_catch call get_world
     put_world guarded prop interpolate negb handle_event process_charge connectDB
     Order_findOne Order_save sendNotificationToUser Cart_findOne Cart_save
     on_error parse];
  cbn [world calls orders carts outbox].

(** Splits conjunctions and introduces premises, down to the atoms. *)
Ltac cases_intro :=
  repeat match goal with
         | |- _ ∧ _ => split
         | |- _ → _ => intros ?
         | |- ∀ _, _ => intros ?
         end.

(** Membership in a list given by its elements. *)
Ltac listed :=
  solve [repeat first [apply list_elem_of_here | apply list_elem_of_further]].

Section Properties.

Variable hmac_sha256_hex : string → string → string.
Variable JSON_parse : string → option JsVal.
Variable cast_orderId : JsVal → option string.

Abbreviation POST := (POST hmac_sha256_hex JSON_parse cast_orderId).
Abbreviation handler := (handler hmac_sha256_hex JSON_parse cast_orderId).
Abbreviation handle_event := (handle_event cast_orderId).
Abbreviation process_charge := (process_charge cast_orderId).
Abbreviation correctly_signed := (correctly_signed hmac_sha256_hex).
Abbreviation delivers := (delivers hmac_sha256_hex JSON_parse).
Abbreviation finds := (finds cast_orderId).
Abbreviation filter_key := (filter_key cast_orderId).

(** *** Values *)

Lemma strict_eq_str_true v lit : strict_eq_str v lit = true ↔ v = JStr lit.
Proof.
  destruct v; simpl; try (split; [discriminate|congruence]).
  rewrite String.eqb_eq. split; congruence.
Qed.

Lemma strict_eq_str_false v lit : strict_eq_str v lit = false ↔ v ≠ JStr lit.
Proof.
  rewrite <- strict_eq_str_true. by destruct (strict_eq_str v lit).
Qed.

Lemma member_defined v k : member v k ≠ JUndefined → nullish v = false.
Proof. destruct v; simpl; congruence. Qed.

Lemma prop_bind {B} v k (f : JsVal → M B) :
  nullish v = false → (prop v k ≫= f) = f (member v k).
Proof. intros H. unfold prop. by rewrite H. Qed.

Lemma prop_bind_nullish {B} v k (f : JsVal → M B) :
  nullish v = true → (prop v k ≫= f) = throw.
Proof. intros H. unfold prop. by rewrite H. Qed.

Lemma charge_success_shape event :
  charge_success event → nullish event = false ∧ nullish (event_data event) = false.
Proof.
  intros [Hk Hs]. split.
  - apply (member_defined _ "event"). unfold event_kind in Hk. congruence.
  - apply (member_defined _ "status"). unfold event_status in Hs. congruence.
Qed.

(** *** Authentication and decoding *)

Lemma handler_signed env req :
  correctly_signed env req →
  handler env req =
  (event ← parse JSON_parse (body req) ;
   handle_event env event ;;
   return_ ok_response).
Proof.
  intros (k & Hk & Hne & Hsig). unfold handler. rewrite Hk, Hsig.
  destruct k as [|a k]; [done|].
  by rewrite bool_decide_eq_true_2.
Qed.

Lemma POST_delivered env req event s :
  delivers env req event →
  POST env req s =
  match handle_event env event s with
  | (s', Normal _) => (s', Responded ok_response)
  | (s', Return r) => (s', Responded r)
  | (s', Throw) => (s', Uncaught)
  end.
Proof.
  intros [Hs Hp]. unfold POST. rewrite handler_signed by done.
  unfold parse. rewrite Hp.
  unfold mbind, M_bind, bind, ret, return_.
  by destruct (handle_event env event s) as [s' [[]| |]].
Qed.

Lemma POST_unconfigured env req s :
  secret env = None ∨ secret env = Some "" →
  POST env req s =
  (s, Responded (json [("message", "Server configuration error.")] 500)).
Proof. unfold POST, handler. by intros [-> | ->]. Qed.

(** *** Dispatch on the event *)

Lemma handle_charge_success env event :
  charge_success event →
  handle_event env event =
  try_catch (process_charge env (event_data event) (event_metadata event))
            (on_error (event_metadata event)).
Proof.
  intros Hc. destruct (charge_success_shape _ Hc) as [He Hd]. destruct Hc as [Hk Hs].
  unfold handle_event.
  rewrite prop_bind by done. fold (event_kind event).
  rewrite Hk. cbn [strict_eq_str]. rewrite String.eqb_refl.
  rewrite prop_bind by done. fold (event_data event).
  rewrite !prop_bind by done. fold (event_status event) (event_metadata event).
  rewrite Hs. cbn [strict_eq_str]. by rewrite String.eqb_refl.
Qed.

Lemma handle_other_kind env event :
  nullish event = false → event_kind event ≠ JStr "charge.success" →
  handle_event env event = ret ().
Proof.
  intros He Hk%strict_eq_str_false. unfold handle_event.
  rewrite prop_bind by done. fold (event_kind event). by rewrite Hk.
Qed.

Lemma handle_other_status env event :
  nullish event = false → nullish (event_data event) = false →
  event_status event ≠ JStr "success" →
  handle_event env event = ret ().
Proof.
  intros He Hd Hs%strict_eq_str_false. unfold handle_event.
  rewrite prop_bind by done.
  destruct (strict_eq_str _ "charge.success"); [|done].
  rewrite prop_bind by done. fold (event_data event).
  rewrite !prop_bind by done. fold (event_status event). by rewrite Hs.
Qed.

Lemma handle_no_data env event :
  event_kind event = JStr "charge.success" → nullish (event_data event) = true →
  handle_event env event = throw.
Proof.
  intros Hk Hd.
  assert (nullish event = false) as He.
  { apply (member_defined _ "event"). unfold event_kind in Hk. congruence. }
  unfold handle_event. rewrite prop_bind by done.
  fold (event_kind event). rewrite Hk. cbn [strict_eq_str]. rewrite String.eqb_refl.
  rewrite prop_bind by done. fold (event_data event). by rewrite prop_bind_nullish.
Qed.

Lemma truthy_member v k : truthy (member v k) = true → nullish v = false.
Proof. by destruct v. Qed.

Lemma eqb_Completed o :
  (Payment.status (Order.payment o) =? "Completed") = false ↔
  Payment.status (Order.payment o) ≠ "Completed".
Proof. apply String.eqb_neq. Qed.

(** Only objects and arrays can fail to convert, and both are truthy. *)
Lemma to_string_throws_truthy v : to_string_throws v = true → truthy v = true.
Proof. by destruct v. Qed.

(** [metadata?.orderId] is the id the [try] reads, or [undefined]. *)
Lemma optional_member_member v k : optional_member v k = member v k.
Proof. by destruct v. Qed.

(** *** The body of the [try]: every way it can end *)

Lemma process_charge_cases (P : Sys → Completion () → Prop) env data metadata s :
  let oid := member metadata "orderId" in
  let logged t := {| world := world s; calls := calls s ++ t |} in
  (connectDB_ok env = false ∨ nullish metadata = true →
   P (logged [ConnectDB]) Throw) →
  (connectDB_ok env = true → nullish metadata = false → truthy oid = false →
   P (logged [ConnectDB])
     (Return (json [("status", "error"); ("message", "Missing orderId")] 400))) →
  (connectDB_ok env = true → truthy oid = true →
   order_findOne_ok env = false ∨ filter_key oid = None →
   P (logged [ConnectDB; OrderFindOne oid]) Throw) →
  (∀ k, connectDB_ok env = true → truthy oid = true →
   order_findOne_ok env = true → filter_key oid = Some k →
   list_find (λ o, Order.orderId o = k) (orders (world s)) = None →
   P (logged [ConnectDB; OrderFindOne oid])
     (if to_string_throws oid then Throw
      else Return (json [("status", "error"); ("message", "Order not found")] 404))) →
  (∀ doc order, connectDB_ok env = true → truthy oid = true →
   order_findOne_ok env = true → finds (world s) oid doc order →
   Payment.status (Order.payment order) = "Completed" →
   P (logged [ConnectDB; OrderFindOne oid])
     (if to_string_throws oid then Throw else Return ok_response)) →
  (∀ doc order, connectDB_ok env = true → truthy oid = true →
   order_findOne_ok env = true → finds (world s) oid doc order →
   Payment.status (Order.payment order) ≠ "Completed" →
   nullish data = true →
   P (logged [ConnectDB; OrderFindOne oid]) Throw) →
  (∀ doc order, connectDB_ok env = true → truthy oid = true →
   order_findOne_ok env = true → finds (world s) oid doc order →
   Payment.status (Order.payment order) ≠ "Completed" →
   nullish data = false → order_save_ok env = false →
   P (logged [ConnectDB; OrderFindOne oid; OrderSave doc]) Throw) →
  (∀ doc order, connectDB_ok env = true → truthy oid = true →
   order_findOne_ok env = true → finds (world s) oid doc order →
   Payment.status (Order.payment order) ≠ "Completed" →
   nullish data = false → order_save_ok env = true →
   let saved := apply_charge env (member data "reference") order in
   let note := payment_notification saved in
   let paid :=
     {| orders := <[doc := saved]> (orders (world s));
        carts := carts (world s);
        outbox := if notification_ok env then outbox (world s) ++ [note]
                  else outbox (world s) |} in
   let upto_cart :=
     [ConnectDB; OrderFindOne oid; OrderSave doc; SendNotification note;
      CartFindOne (Order.user order)] in
   let done_ := if to_string_throws oid then Throw else Normal () in
   (cart_findOne_ok env = false →
    P {| world := paid; calls := calls s ++ upto_cart |} Throw) ∧
   (cart_findOne_ok env = true →
    list_find (λ c, Cart.user c = Order.user order) (carts (world s)) = None →
    P {| world := paid; calls := calls s ++ upto_cart |} done_) ∧
   (∀ cdoc cart, cart_findOne_ok env = true →
    list_find (λ c, Cart.user c = Order.user order) (carts (world s)) =
      Some (cdoc, cart) →
    (cart_save_ok env = false →
     P {| world := paid; calls := calls s ++ upto_cart ++ [CartSave cdoc] |} Throw) ∧
    (cart_save_ok env = true →
     P {| world :=
            {| orders := orders paid;
               carts := <[cdoc := Cart.mk (Cart.user cart) []]> (carts (world s));
               outbox := outbox paid |};
          calls := calls s ++ upto_cart ++ [CartSave cdoc] |} done_))) →
  P (process_charge env data metadata s).1 (process_charge env data metadata s).2.
Proof.
  intros oid logged H1 H2 H3 H4 H5 H6 H7 H8. subst oid logged. mrun.
  destruct (connectDB_ok env) eqn:Hc; mrun; [|apply H1; by left].
  destruct (nullish metadata) eqn:Hm; mrun; [apply H1; by right|].
  destruct (truthy (member metadata "orderId")) eqn:Ht; mrun; [|by apply H2].
  destruct (to_string_throws (member metadata "orderId")) eqn:Hts; mrun.
  all: destruct (order_findOne_ok env) eqn:Hf; mrun;
    [|rewrite <- (assoc_L (++)); apply H3; auto].
  all: destruct (filter_key (member metadata "orderId")) as [k|] eqn:Hk; mrun;
    [|rewrite <- (assoc_L (++)); apply H3; auto].
  all: destruct (list_find (λ o, Order.orderId o = k) (orders (world s)))
    as [[doc order]|] eqn:Hfind; mrun;
    [|rewrite <- (assoc_L (++)); by eapply H4].
  all: assert (finds (world s) (member metadata "orderId") doc order) as Hfinds
    by (by exists k).
  all: destruct (Payment.status (Order.payment order) =? "Completed") eqn:Hp; mrun;
    [apply String.eqb_eq in Hp; rewrite <- (assoc_L (++)); by eapply H5|].
  all: apply String.eqb_neq in Hp.
  all: destruct (nullish data) eqn:Hd; mrun;
    [rewrite <- (assoc_L (++)); by eapply H6|].
  all: destruct (order_save_ok env) eqn:Hsv; mrun;
    [|rewrite <- !(assoc_L (++)); by eapply H7].
  all: destruct (H8 doc order) as (Hdown & Hnone & Hsome); try done.
  all: change (Order.user (apply_charge env (member data "reference") order))
    with (Order.user order).
  all: destruct (notification_ok env); mrun.
  all: destruct (cart_findOne_ok env) eqn:Hcf; mrun;
    [|rewrite <- !(assoc_L (++)); by apply Hdown].
  all: destruct (list_find (λ c, Cart.user c = Order.user order) (carts (world s)))
    as [[cdoc cart]|] eqn:Hcart; mrun;
    [|rewrite <- !(assoc_L (++)); by apply Hnone].
  all: destruct (Hsome cdoc cart) as [Hfail Hok]; try done.
  all: destruct (cart_save_ok env); mrun; rewrite <- !(assoc_L (++));
    [by apply Hok|by apply Hfail].
Qed.

(** *** Whole requests: every way they can end *)

Lemma POST_answer env req event s :
  delivers env req event → charge_success event →
  POST env req s =
  ((process_charge env (event_data event) (event_metadata event) s).1,
   answer (event_metadata event)
     (process_charge env (event_data event) (event_metadata event) s).2).
Proof.
  intros Hd Hc. rewrite (POST_delivered _ _ _ _ Hd), handle_charge_success by done.
  unfold try_catch, on_error, interpolate, answer, mbind, M_bind, bind, return_, throw.
  destruct (process_charge env (event_data event) (event_metadata event) s)
    as [s' [[]| |]]; cbn [fst snd]; try done.
  by destruct (to_string_throws _).
Qed.

Lemma POST_cases (P : Sys → Outcome → Prop) env req s :
  (secret env = None ∨ secret env = Some "" →
   P s (Responded (json [("message", "Server configuration error.")] 500))) →
  (∀ k, secret env = Some k → k ≠ "" →
   signature req ≠ Some (hmac_sha256_hex k (body req)) →
   P s (Responded (json [("message", "Forbidden: Invalid signature.")] 403))) →
  (correctly_signed env req → JSON_parse (body req) = None → P s Uncaught) →
  (∀ event, delivers env req event → nullish event = true → P s Uncaught) →
  (∀ event, delivers env req event → nullish event = false →
   event_kind event ≠ JStr "charge.success" → P s (Responded ok_response)) →
  (∀ event, delivers env req event → event_kind event = JStr "charge.success" →
   nullish (event_data event) = true → P s Uncaught) →
  (∀ event, delivers env req event → event_kind event = JStr "charge.success" →
   nullish (event_data event) = false → event_status event ≠ JStr "success" →
   P s (Responded ok_response)) →
  (∀ event, delivers env req event → charge_success event →
   P (process_charge env (event_data event) (event_metadata event) s).1
     (answer (event_metadata event)
        (process_charge env (event_data event) (event_metadata event) s).2)) →
  P (POST env req s).1 (POST env req s).2.
Proof.
  intros H1 H2 H3 H4 H5 H6 H7 H8.
  destruct (secret env) as [k|] eqn:Hk; [|rewrite POST_unconfigured; auto].
  destruct (decide (k = "")) as [->|Hne]; [rewrite POST_unconfigured; auto|].
  destruct (decide (signature req = Some (hmac_sha256_hex k (body req))))
    as [Hsig|Hsig].
  2: { unfold POST, handler. rewrite Hk. destruct k as [|a k]; [done|].
       rewrite bool_decide_eq_false_2 by congruence. by eapply H2. }
  assert (correctly_signed env req) as Hs by (by exists k).
  destruct (JSON_parse (body req)) as [event|] eqn:Hp.
  2: { unfold POST. rewrite handler_signed by done. unfold parse. rewrite Hp.
       by apply H3. }
  assert (delivers env req event) as Hd by done.
  destruct (nullish event) eqn:He.
  { rewrite (POST_delivered _ _ _ _ Hd). unfold handle_event.
    rewrite prop_bind_nullish by done. by eapply H4. }
  destruct (strict_eq_str (event_kind event) "charge.success") eqn:Hkind.
  2: { apply strict_eq_str_false in Hkind. rewrite (POST_delivered _ _ _ _ Hd).
       rewrite handle_other_kind by done. by eapply H5. }
  apply strict_eq_str_true in Hkind.
  destruct (nullish (event_data event)) eqn:Hdata.
  { rewrite (POST_delivered _ _ _ _ Hd), handle_no_data by done. by eapply H6. }
  destruct (strict_eq_str (event_status event) "success") eqn:Hst.
  2: { apply strict_eq_str_false in Hst. rewrite (POST_delivered _ _ _ _ Hd).
       rewrite handle_other_status by done. by eapply H7. }
  apply strict_eq_str_true in Hst.
  rewrite (POST_answer _ _ _ _ Hd (conj Hkind Hst)). by apply H8.
Qed.

(** *** The timeline *)

Lemma confirm_length tl : length (confirm tl) = length tl.
Proof.
  unfold confirm. destruct (list_find _ tl) as [[i e]|]; [|done].
  apply length_insert.
Qed.

Lemma confirm_lookup tl i e :
  tl !! i = Some e →
  confirm tl !! i =
  Some (if decide (confirmed_index tl = Some i) then mark_completed e else e).
Proof.
  intros Hi. unfold confirm, confirmed_index.
  destruct (list_find _ tl) as [[j x]|] eqn:Hfind; simpl.
  - apply list_find_Some in Hfind as (Hj & _ & _).
    destruct (decide (Some j = Some i)) as [[= ->]|Hne].
    + rewrite list_lookup_insert_eq by (by eapply lookup_lt_Some). congruence.
    + rewrite list_lookup_insert_ne by congruence. done.
  - by destruct (decide (None = Some i)).
Qed.

Lemma current_count_zero tl :
  current_count tl = 0 ↔ Forall (λ e, TimelineEntry.status e ≠ "current") tl.
Proof.
  unfold current_count. induction tl as [|e tl IH].
  - split; [constructor|done].
  - rewrite filter_cons. destruct (decide (TimelineEntry.status e = "current")) as [He|He].
    + split; [done|]. by intros [? _]%Forall_cons.
    + rewrite IH, Forall_cons. tauto.
Qed.

Lemma current_count_snoc tl e :
  TimelineEntry.status e = "current" →
  current_count (tl ++ [e]) = S (current_count tl).
Proof.
  intros He. unfold current_count.
  rewrite filter_app, filter_cons_True, filter_nil, length_app by done.
  simpl. lia.
Qed.

(** After the update no earlier entry is current exactly when, before it,
    the only entry that could be current was the one found. *)
Lemma current_count_confirm tl :
  current_count (confirm tl) = 0 ↔
  ∀ i e, tl !! i = Some e → TimelineEntry.status e = "current" →
         confirmed_index tl = Some i.
Proof.
  rewrite current_count_zero, Forall_lookup. split.
  - intros H i e Hi He. specialize (H i _ (confirm_lookup _ _ _ Hi)).
    by destruct (decide (confirmed_index tl = Some i)).
  - intros H i e' Hi'.
    destruct (tl !! i) as [e|] eqn:Hi.
    + rewrite (confirm_lookup _ _ _ Hi) in Hi'. injection Hi' as <-.
      destruct (decide (confirmed_index tl = Some i)) as [|Hne]; [done|].
      intros He. by apply Hne, (H i e).
    + apply lookup_ge_None in Hi. apply lookup_lt_Some in Hi'.
      rewrite confirm_length in Hi'. lia.
Qed.

(** *** Looking the order up again *)

Lemma finds_unique w v doc order doc' order' :
  finds w v doc order → finds w v doc' order' → doc = doc' ∧ order = order'.
Proof.
  intros (k & Hk & H) (k' & Hk' & H').
  assert (k' = k) as -> by congruence.
  rewrite H in H'. by injection H'.
Qed.

Lemma finds_lookup w v doc order :
  finds w v doc order → orders w !! doc = Some order.
Proof. by intros (k & _ & (? & _)%list_find_Some). Qed.

(** A save that keeps the order id does not move the document. *)
Lemma finds_after_save w w' v doc order order' :
  finds w v doc order →
  Order.orderId order' = Order.orderId order →
  orders w' = <[doc := order']> (orders w) →
  finds w' v doc order'.
Proof.
  intros (k & Hk & (Hdoc & Hid & Hfirst)%list_find_Some) Hsame Hw'.
  exists k. split; [done|]. rewrite Hw'.
  apply list_find_insert_Some. right; left.
  split_and!; [done|done|by eapply lookup_lt_Some|congruence|done].
Qed.

(** The run once the order is found unpaid and saved: what is left is the
    notification, the cart and the two log lines. *)
Lemma process_saved_cases (P : Sys → Completion () → Prop) env data metadata s doc order :
  connectDB_ok env = true → order_findOne_ok env = true → order_save_ok env = true →
  nullish data = false →
  truthy (member metadata "orderId") = true →
  finds (world s) (member metadata "orderId") doc order →
  Payment.status (Order.payment order) ≠ "Completed" →
  let saved := apply_charge env (member data "reference") order in
  let note := payment_notification saved in
  let paid :=
    {| orders := <[doc := saved]> (orders (world s));
       carts := carts (world s);
       outbox := if notification_ok env then outbox (world s) ++ [note]
                 else outbox (world s) |} in
  let upto_cart :=
    [ConnectDB; OrderFindOne (member metadata "orderId"); OrderSave doc;
     SendNotification note; CartFindOne (Order.user order)] in
  let done_ :=
    if to_string_throws (member metadata "orderId") then Throw else Normal () in
  (cart_findOne_ok env = false →
   P {| world := paid; calls := calls s ++ upto_cart |} Throw) →
  (cart_findOne_ok env = true →
   list_find (λ c, Cart.user c = Order.user order) (carts (world s)) = None →
   P {| world := paid; calls := calls s ++ upto_cart |} done_) →
  (∀ cdoc cart, cart_findOne_ok env = true →
   list_find (λ c, Cart.user c = Order.user order) (carts (world s)) =
     Some (cdoc, cart) →
   cart_save_ok env = false →
   P {| world := paid; calls := calls s ++ upto_cart ++ [CartSave cdoc] |} Throw) →
  (∀ cdoc cart, cart_findOne_ok env = true →
   list_find (λ c, Cart.user c = Order.user order) (carts (world s)) =
     Some (cdoc, cart) →
   cart_save_ok env = true →
   P {| world :=
          {| orders := orders paid;
             carts := <[cdoc := Cart.mk (Cart.user cart) []]> (carts (world s));
             outbox := outbox paid |};
        calls := calls s ++ upto_cart ++ [CartSave cdoc] |} done_) →
  P (process_charge env data metadata s).1 (process_charge env data metadata s).2.
Proof.
  intros Hcon Hfo Hsv Hd Ht Hf Hp saved note paid upto_cart done_ H1 H2 H3 H4.
  pose proof (truthy_member _ _ Ht) as Hm.
  apply process_charge_cases.
  - intros [?|?]; congruence.
  - congruence.
  - destruct Hf as (k & Hk & _). intros _ _ [?|?]; congruence.
  - destruct Hf as (k' & Hk' & Hfind). intros k _ _ _ Hk Hnone.
    assert (k' = k) as -> by congruence. congruence.
  - intros doc' order' _ _ _ Hf' Hpaid.
    by destruct (finds_unique _ _ _ _ _ _ Hf Hf') as [_ ->].
  - congruence.
  - congruence.
  - intros doc' order' _ _ _ Hf' _ _ _.
    destruct (finds_unique _ _ _ _ _ _ Hf Hf') as [<- <-].
    split_and!; [done|done|]. intros cdoc cart Hcf Hcart. split; eauto.
Qed.

Lemma process_missing_orderId env data metadata s :
  connectDB_ok env = true → nullish metadata = false →
  truthy (member metadata "orderId") = false →
  process_charge env data metadata s =
  ({| world := world s; calls := calls s ++ [ConnectDB] |},
   Return (json [("status", "error"); ("message", "Missing orderId")] 400)).
Proof. intros Hc Hm Ht. mrun. rewrite Hc, Hm. mrun. by rewrite Ht. Qed.

(** *** Delivering a request again *)

(** A request that changes the stores, or is acknowledged, is correctly
    signed. *)
Lemma POST_acts_signed env req s :
  world (POST env req s).1 ≠ world s ∨ (POST env req s).2 = Responded ok_response →
  correctly_signed env req.
Proof.
  apply (POST_cases (λ (s' : Sys) (out : Outcome),
           world s' ≠ world s ∨ out = Responded ok_response →
           correctly_signed env req)).
  - intros _ [?|?]; [done|discriminate].
  - intros k _ _ _ [?|?]; [done|discriminate].
  - by intros Hs _ _.
  - by intros event [Hs _] _ _.
  - by intros event [Hs _] _ _ _.
  - by intros event [Hs _] _ _ _.
  - by intros event [Hs _] _ _ _ _.
  - by intros event [Hs _] _ _.
Qed.

(** The stores change only when the request delivers a charge.success
    event for an order that is found and not yet paid. *)
Lemma POST_world env req s :
  world (POST env req s).1 = world s ∨
  ∃ event doc order,
    JSON_parse (body req) = Some event ∧ charge_success event ∧
    finds (world s) (event_orderId event) doc order ∧
    Payment.status (Order.payment order) ≠ "Completed".
Proof.
  pose (Q := λ (s' : Sys),
    world s' = world s ∨
    ∃ event doc order,
      JSON_parse (body req) = Some event ∧ charge_success event ∧
      finds (world s) (event_orderId event) doc order ∧
      Payment.status (Order.payment order) ≠ "Completed").
  apply (POST_cases (λ (s' : Sys) (_ : Outcome), Q s')); try by left.
  intros event [_ Hp] Hc.
  apply (process_charge_cases (λ (s' : Sys) (_ : Completion ()), Q s')); try by left.
  intros doc order _ _ _ Hf Hpend _ _. cbn zeta.
  assert (∀ s', Q s') as Hq by (intros s'; right; by exists event, doc, order).
  cases_intro; apply Hq.
Qed.

(** A request that changes the stores, or is acknowledged, leaves the
    order it names paid. *)
Lemma POST_settles env req s event :
  delivers env req event → charge_success event →
  world (POST env req s).1 ≠ world s ∨ (POST env req s).2 = Responded ok_response →
  ∃ doc order,
    finds (world (POST env req s).1) (event_orderId event) doc order ∧
    Payment.status (Order.payment order) = "Completed".
Proof.
  intros Hd Hc. rewrite (POST_answer _ _ _ _ Hd Hc). cbn [fst snd].
  pose (Q := λ (s' : Sys) (c : Completion ()),
    world s' ≠ world s ∨ answer (event_metadata event) c = Responded ok_response →
    ∃ doc order,
      finds (world s') (event_orderId event) doc order ∧
      Payment.status (Order.payment order) = "Completed").
  apply (process_charge_cases Q); subst Q; cbn [world answer].
  - intros _ [?|?]; [done|]. by destruct (to_string_throws _).
  - intros _ _ _ [?|?]; [done|discriminate].
  - intros _ _ _ [?|?]; [done|]. by destruct (to_string_throws _).
  - intros k _ _ _ _ _ [?|Hok]; [done|].
    destruct (to_string_throws (member _ "orderId")); cbn [answer] in Hok;
      [by destruct (to_string_throws _)|discriminate].
  - intros doc order _ _ _ Hf Hpaid _. by exists doc, order.
  - intros doc order _ _ _ _ _ _ [?|?]; [done|]. by destruct (to_string_throws _).
  - intros doc order _ _ _ _ _ _ _ [?|?]; [done|]. by destruct (to_string_throws _).
  - intros doc order _ _ _ Hf _ _ _. cbn zeta.
    assert (∀ w, orders w =
              <[doc := apply_charge env (member (event_data event) "reference") order]>
                (orders (world s)) →
            ∃ doc0 order0,
              finds w (event_orderId event) doc0 order0 ∧
              Payment.status (Order.payment order0) = "Completed") as Hsaved.
    { intros w Hw.
      exists doc, (apply_charge env (member (event_data event) "reference") order).
      split; [|reflexivity].
      eapply finds_after_save; [exact Hf|reflexivity|exact Hw]. }
    cases_intro; by apply Hsaved.
Qed.

(** Delivering again a request that changed the stores, or was
    acknowledged, changes nothing. *)
Lemma POST_twice env1 env2 req s :
  world (POST env1 req s).1 ≠ world s ∨
  (POST env1 req s).2 = Responded ok_response →
  world (POST env2 req (POST env1 req s).1).1 = world (POST env1 req s).1.
Proof.
  intros Hfirst.
  destruct (POST_world env2 req (POST env1 req s).1)
    as [|(event & doc & order & Hp & Hc & Hf & Hpend)]; [done|].
  exfalso. apply Hpend.
  assert (delivers env1 req event) as Hd
    by (split; [by apply (POST_acts_signed _ _ s)|done]).
  destruct (POST_settles _ _ _ _ Hd Hc Hfirst) as (doc' & order' & Hf' & Hpaid).
  by destruct (finds_unique _ _ _ _ _ _ Hf Hf') as [_ ->].
Qed.

(** *** The paths on which the order is found *)

Lemma answer_done metadata :
  answer metadata
    (if to_string_throws (member metadata "orderId") then Throw else Normal ()) =
  if to_string_throws (member metadata "orderId") then Uncaught
  else Responded ok_response.
Proof.
  unfold answer. rewrite optional_member_member.
  by destruct (to_string_throws (member metadata "orderId")).
Qed.

Lemma answer_throw metadata :
  answer metadata Throw =
  if to_string_throws (member metadata "orderId") then Uncaught
  else Responded (json [("message", "Internal server error while updating order.")] 500).
Proof. unfold answer. by rewrite optional_member_member. Qed.

Lemma answer_return metadata r :
  answer metadata
    (if to_string_throws (member metadata "orderId") then Throw else Return r) =
  if to_string_throws (member metadata "orderId") then Uncaught else Responded r.
Proof.
  unfold answer. rewrite optional_member_member.
  by destruct (to_string_throws (member metadata "orderId")).
Qed.

Lemma POST_completed env req s event doc order :
  delivers env req event → charge_success event →
  truthy (event_orderId event) = true →
  connectDB_ok env = true → order_findOne_ok env = true →
  finds (world s) (event_orderId event) doc order →
  Payment.status (Order.payment order) = "Completed" →
  POST env req s =
  ({| world := world s;
      calls := calls s ++ [ConnectDB; OrderFindOne (event_orderId event)] |},
   if to_string_throws (event_orderId event) then Uncaught
   else Responded ok_response).
Proof.
  intros Hd Hc Ht Hcon Hfo (k & Hk & Hfind) Hp.
  pose proof (truthy_member _ _ Ht) as Hm.
  rewrite (POST_answer _ _ _ _ Hd Hc). unfold event_orderId in *.
  rewrite <- answer_return. mrun. rewrite Hcon, Hm. mrun. rewrite Ht, Hfo. mrun.
  rewrite Hk. mrun. rewrite Hfind, Hp. cbn [String.eqb Ascii.eqb Bool.eqb].
  rewrite <- (assoc_L (++)).
  by destruct (to_string_throws (member (event_metadata event) "orderId")).
Qed.

(** The run once the unpaid order is saved: the stores it leaves and the
    answer it gives. *)
Lemma POST_saved env req s event doc order :
  delivers env req event → charge_success event →
  truthy (event_orderId event) = true →
  finds (world s) (event_orderId event) doc order →
  Payment.status (Order.payment order) ≠ "Completed" →
  connectDB_ok env = true → order_findOne_ok env = true → order_save_ok env = true →
  let saved := apply_charge env (event_reference event) order in
  let found := list_find (λ c, Cart.user c = Order.user order) (carts (world s)) in
  orders (world (POST env req s).1) = <[doc := saved]> (orders (world s)) ∧
  outbox (world (POST env req s).1) =
    (if notification_ok env then outbox (world s) ++ [payment_notification saved]
     else outbox (world s)) ∧
  (cart_findOne_ok env = false ∨ cart_save_ok env = false ∧ is_Some found →
   carts (world (POST env req s).1) = carts (world s) ∧
   (POST env req s).2 =
     if to_string_throws (event_orderId event) then Uncaught
     else Responded
            (json [("message", "Internal server error while updating order.")] 500)) ∧
  (cart_findOne_ok env = true → cart_save_ok env = true ∨ found = None →
   carts (world (POST env req s).1) =
     match found with
     | Some (cdoc, cart) => <[cdoc := Cart.mk (Cart.user cart) []]> (carts (world s))
     | None => carts (world s)
     end ∧
   (POST env req s).2 =
     if to_string_throws (event_orderId event) then Uncaught
     else Responded ok_response).
Proof.
  intros Hd Hc Ht Hf Hp Hcon Hfo Hsv saved found.
  destruct (charge_success_shape _ Hc) as [_ Hdata].
  rewrite (POST_answer _ _ _ _ Hd Hc). cbn [fst snd].
  pose (Q := λ (s' : Sys) (c : Completion ()),
    orders (world s') = <[doc := saved]> (orders (world s)) ∧
    outbox (world s') =
      (if notification_ok env then outbox (world s) ++ [payment_notification saved]
       else outbox (world s)) ∧
    (cart_findOne_ok env = false ∨ cart_save_ok env = false ∧ is_Some found →
     carts (world s') = carts (world s) ∧
     answer (event_metadata event) c =
       if to_string_throws (event_orderId event) then Uncaught
       else Responded
              (json [("message", "Internal server error while updating order.")] 500)) ∧
    (cart_findOne_ok env = true → cart_save_ok env = true ∨ found = None →
     carts (world s') =
       match found with
       | Some (cdoc, cart) => <[cdoc := Cart.mk (Cart.user cart) []]> (carts (world s))
       | None => carts (world s)
       end ∧
     answer (event_metadata event) c =
       if to_string_throws (event_orderId event) then Uncaught
       else Responded ok_response)).
  apply (process_saved_cases Q env _ _ s doc order); try done; subst Q found; cbn.
  - intros Hcf. split_and!; [done|done| |congruence].
    intros _. split; [done|apply answer_throw].
  - intros Hcf Hnone. rewrite Hnone. split_and!; [done|done| |].
    + intros [?|[_ [? ?]]]; congruence.
    + intros _ _. split; [done|apply answer_done].
  - intros cdoc cart Hcf Hcart Hcs. rewrite Hcart. split_and!; [done|done| |].
    + intros _. split; [done|apply answer_throw].
    + intros _ [?|?]; congruence.
  - intros cdoc cart Hcf Hcart Hcs. rewrite Hcart. split_and!; [done|done| |].
    + intros [?|[? _]]; congruence.
    + intros _ _. split; [done|apply answer_done].
Qed.

(** The entry that [find] returns gets status 'completed'; the others
    stay. *)
Lemma confirm_found tl i e :
  list_find (λ e, TimelineEntry.title e = "Order Confirmed") tl = Some (i, e) →
  confirm tl !! i =
  Some (TimelineEntry.mk (TimelineEntry.title e) (TimelineEntry.description e)
          "completed" (TimelineEntry.timestamp e)).
Proof.
  intros Hfind. pose proof Hfind as (Hi & _ & _)%list_find_Some.
  rewrite (confirm_lookup _ _ _ Hi). unfold confirmed_index. rewrite Hfind.
  simpl. by destruct (decide (Some i = Some i)).
Qed.

Lemma confirm_other tl i e :
  tl !! i = Some e →
  (∀ e', list_find (λ e, TimelineEntry.title e = "Order Confirmed") tl ≠ Some (i, e')) →
  confirm tl !! i = Some e.
Proof.
  intros Hi Hother. rewrite (confirm_lookup _ _ _ Hi). unfold confirmed_index.
  destruct (list_find _ tl) as [[j x]|]; simpl.
  - destruct (decide (Some j = Some i)) as [[= ->]|]; [|done].
    exfalso. by eapply Hother.
  - by destruct (decide (None = Some i)).
Qed.

Lemma confirmed_index_Some tl i :
  confirmed_index tl = Some i ↔
  ∃ e, list_find (λ e, TimelineEntry.title e = "Order Confirmed") tl = Some (i, e).
Proof.
  unfold confirmed_index. destruct (list_find _ tl) as [[j x]|]; simpl.
  - split; [intros [= ->]; by exists x|]. by intros (e & [= -> _]).
  - split; [done|]. by intros (e & ?).
Qed.

(** ** The claims *)

(** C1, amended.  When the order found for a correctly signed
    charge.success event with status success is already paid
    ([payment.status] is 'Completed'), the handler connects, looks the
    order up and changes nothing: orders, timelines, carts and
    notifications are as they were, and neither the notification service
    nor the cart collection is called.  It answers 200 [{status:'ok'}]
    when the event's order id can be converted to a string for the log
    line, and otherwise ends with an uncaught exception.  Hence a second
    delivery of a request that changed the stores, or was acknowledged,
    leaves the state as the first delivery left it. *)
Theorem completed_order_is_settled env req s event doc order :
  delivers env req event → charge_success event →
  truthy (event_orderId event) = true →
  connectDB_ok env = true → order_findOne_ok env = true →
  finds (world s) (event_orderId event) doc order →
  Payment.status (Order.payment order) = "Completed" →
  POST env req s =
    ({| world := world s;
        calls := calls s ++ [ConnectDB; OrderFindOne (event_orderId event)] |},
     if to_string_throws (event_orderId event) then Uncaught
     else Responded (json [("status", "ok")] 200)) ∧
  ∀ env1 env2 s1,
    world (POST env1 req s1).1 ≠ world s1 ∨
    (POST env1 req s1).2 = Responded (json [("status", "ok")] 200) →
    world (POST env2 req (POST env1 req s1).1).1 = world (POST env1 req s1).1.
Proof.
  intros Hd Hc Ht Hcon Hfo Hf Hp. split.
  - by apply POST_completed with doc order.
  - intros env1 env2 s1. apply POST_twice.
Qed.

(** C2, amended.  When the order found for a correctly signed
    charge.success event with status success and reference R is not yet
    paid, and the connection, the lookup and the save succeed, the
    document saved in its place keeps its id and user, has
    [payment.status] 'Completed', [payment.transactionId] R and [status]
    'Processing'; its timeline is the old one, with the first entry titled
    'Order Confirmed' (if any) set to status 'completed', followed by
    exactly one new entry: 'Processing', the warehouse text, 'current', the
    current time.  The response is 200 [{status:'ok'}] when, in addition,
    the cart lookup and the cart save succeed and the order id can be
    converted to a string for the log lines. *)
Theorem charge_success_applies env req s event doc order :
  delivers env req event → charge_success event →
  truthy (event_orderId event) = true →
  finds (world s) (event_orderId event) doc order →
  Payment.status (Order.payment order) ≠ "Completed" →
  connectDB_ok env = true → order_findOne_ok env = true → order_save_ok env = true →
  ∃ order' tl,
    orders (world (POST env req s).1) = <[doc := order']> (orders (world s)) ∧
    orders (world (POST env req s).1) !! doc = Some order' ∧
    Order.orderId order' = Order.orderId order ∧
    Order.user order' = Order.user order ∧
    Order.payment order' = Payment.mk "Completed" (event_reference event) ∧
    Order.status order' = "Processing" ∧
    Order.timeline order' =
      tl ++ [TimelineEntry.mk "Processing"
               "We are preparing your items for shipment at the warehouse."
               "current" (now env)] ∧
    length tl = length (Order.timeline order) ∧
    (∀ i e,
       list_find (λ e, TimelineEntry.title e = "Order Confirmed")
         (Order.timeline order) = Some (i, e) →
       tl !! i =
       Some (TimelineEntry.mk (TimelineEntry.title e) (TimelineEntry.description e)
               "completed" (TimelineEntry.timestamp e))) ∧
    (∀ i e, Order.timeline order !! i = Some e →
       (∀ e', list_find (λ e, TimelineEntry.title e = "Order Confirmed")
                (Order.timeline order) ≠ Some (i, e')) →
       tl !! i = Some e) ∧
    (cart_findOne_ok env = true → cart_save_ok env = true →
     to_string_throws (event_orderId event) = false →
     (POST env req s).2 = Responded (json [("status", "ok")] 200)).
Proof.
  intros Hd Hc Ht Hf Hp Hcon Hfo Hsv.
  destruct (POST_saved env req s event doc order) as (Ho & _ & _ & Hok); try done.
  exists (apply_charge env (event_reference event) order),
    (confirm (Order.timeline order)).
  split_and!; try done.
  - rewrite Ho. apply list_lookup_insert_eq. eapply lookup_lt_Some, finds_lookup, Hf.
  - apply confirm_length.
  - apply confirm_found.
  - apply confirm_other.
  - intros Hcf Hcs Hts. destruct Hok as [_ ->]; auto. by rewrite Hts.
Qed.

(** C3.  With a secret configured, a request whose signature header is
    absent or differs from the hex HMAC-SHA256 of its body under that
    secret is answered 403, and nothing else happens: no collaborator is
    called and the stores are as before. *)
Theorem bad_signature_rejected env req s k :
  secret env = Some k → k ≠ "" →
  signature req ≠ Some (hmac_sha256_hex k (body req)) →
  POST env req s =
    (s, Responded (json [("message", "Forbidden: Invalid signature.")] 403)).
Proof.
  intros Hk Hne Hsig. unfold POST, handler. rewrite Hk.
  destruct k as [|a k]; [done|].
  rewrite bool_decide_eq_false_2 by congruence. reflexivity.
Qed.

(** C4, amended.  After the first successful application (the connection,
    the lookup and the save succeeding) the saved timeline ends with the
    new entry titled 'Processing', whose status is 'current'; the first
    earlier entry titled 'Order Confirmed' has status 'completed' and
    every other earlier entry is as it was.  So exactly one entry is
    current if and only if, before the update, no entry other than that
    first 'Order Confirmed' one was current. *)
Theorem timeline_after_charge env req s event doc order :
  delivers env req event → charge_success event →
  truthy (event_orderId event) = true →
  finds (world s) (event_orderId event) doc order →
  Payment.status (Order.payment order) ≠ "Completed" →
  connectDB_ok env = true → order_findOne_ok env = true → order_save_ok env = true →
  ∃ order',
    orders (world (POST env req s).1) !! doc = Some order' ∧
    last (Order.timeline order') =
      Some (TimelineEntry.mk "Processing"
              "We are preparing your items for shipment at the warehouse."
              "current" (now env)) ∧
    length (Order.timeline order') = S (length (Order.timeline order)) ∧
    (∀ i e,
       list_find (λ e, TimelineEntry.title e = "Order Confirmed")
         (Order.timeline order) = Some (i, e) →
       Order.timeline order' !! i =
       Some (TimelineEntry.mk (TimelineEntry.title e) (TimelineEntry.description e)
               "completed" (TimelineEntry.timestamp e))) ∧
    (∀ i e, Order.timeline order !! i = Some e →
       (∀ e', list_find (λ e, TimelineEntry.title e = "Order Confirmed")
                (Order.timeline order) ≠ Some (i, e')) →
       Order.timeline order' !! i = Some e) ∧
    (length (filter (λ e, TimelineEntry.status e = "current")
               (Order.timeline order')) = 1 ↔
     ∀ i e, Order.timeline order !! i = Some e →
            TimelineEntry.status e = "current" →
            ∃ e', list_find (λ e, TimelineEntry.title e = "Order Confirmed")
                    (Order.timeline order) = Some (i, e')).
Proof.
  intros Hd Hc Ht Hf Hp Hcon Hfo Hsv.
  destruct (POST_saved env req s event doc order) as (Ho & _); try done.
  exists (apply_charge env (event_reference event) order).
  split_and!; cbn [apply_charge Order.timeline].
  - rewrite Ho. apply list_lookup_insert_eq. eapply lookup_lt_Some, finds_lookup, Hf.
  - apply last_snoc.
  - rewrite length_app, confirm_length. simpl. lia.
  - intros i e Hfind. pose proof Hfind as (Hi & _ & _)%list_find_Some.
    rewrite lookup_app_l by (rewrite confirm_length; by eapply lookup_lt_Some).
    by apply confirm_found.
  - intros i e Hi Hother.
    rewrite lookup_app_l by (rewrite confirm_length; by eapply lookup_lt_Some).
    by apply confirm_other.
  - fold (current_count (confirm (Order.timeline order) ++ [processing_entry (now env)])).
    rewrite current_count_snoc by done.
    setoid_rewrite <- confirmed_index_Some. rewrite <- current_count_confirm. lia.
Qed.

(** C5, amended.  For a correctly signed charge.success event with status
    success whose metadata is present and whose [metadata.orderId] is
    empty or absent (falsy), the handler, once connected to the database,
    answers 400: no order is looked up and nothing is written. *)
Theorem missing_orderId_rejected env req s event :
  delivers env req event → charge_success event →
  nullish (event_metadata event) = false →
  truthy (event_orderId event) = false →
  connectDB_ok env = true →
  POST env req s =
    ({| world := world s; calls := calls s ++ [ConnectDB] |},
     Responded (json [("status", "error"); ("message", "Missing orderId")] 400)).
Proof.
  intros Hd Hc Hm Ht Hcon. rewrite (POST_answer _ _ _ _ Hd Hc).
  by rewrite process_missing_orderId.
Qed.

(** C6, amended.  For a correctly signed event that is not [null], and
    whose kind is not 'charge.success', or whose data is present with a
    status that is not 'success', the handler calls no collaborator and
    answers 200 [{status:'ok'}]. *)
Theorem irrelevant_event_acknowledged env req s event :
  delivers env req event → nullish event = false →
  event_kind event ≠ JStr "charge.success" ∨
  (nullish (event_data event) = false ∧ event_status event ≠ JStr "success") →
  POST env req s = (s, Responded ok_response).
Proof.
  intros Hd He Hirr. rewrite (POST_delivered _ _ _ _ Hd).
  destruct Hirr as [Hk|[Hdata Hs]].
  - by rewrite handle_other_kind.
  - by rewrite handle_other_status.
Qed.

(** C7, amended.  For a correctly signed request whose body is not
    well-formed JSON, parsing throws and the exception leaves the handler
    uncaught: the handler builds no response, calls no collaborator and
    changes nothing. *)
Theorem malformed_body_throws env req s :
  correctly_signed env req → JSON_parse (body req) = None →
  POST env req s = (s, Uncaught).
Proof.
  intros Hs Hp. unfold POST. rewrite handler_signed by done.
  unfold parse. by rewrite Hp.
Qed.

(** C9, amended.  Once [order.save] has succeeded the updated order is
    stored, whatever follows.  A failing cart lookup or cart save then
    makes the handler answer 500, or end with an uncaught exception when
    the order id cannot be converted to a string for the log line of the
    [catch]; so a 500 does not mean the order is unchanged.  A failing
    notification alone is swallowed: the answer is then 200 (or the same
    uncaught exception). *)
Theorem cart_failure_after_save env req s event doc order :
  delivers env req event → charge_success event →
  truthy (event_orderId event) = true →
  finds (world s) (event_orderId event) doc order →
  Payment.status (Order.payment order) ≠ "Completed" →
  connectDB_ok env = true → order_findOne_ok env = true → order_save_ok env = true →
  ∃ order',
    orders (world (POST env req s).1) !! doc = Some order' ∧
    Order.payment order' = Payment.mk "Completed" (event_reference event) ∧
    Order.status order' = "Processing" ∧
    orders (world (POST env req s).1) ≠ orders (world s) ∧
    (cart_findOne_ok env = false ∨
     cart_save_ok env = false ∧
     is_Some (list_find (λ c, Cart.user c = Order.user order) (carts (world s))) →
     carts (world (POST env req s).1) = carts (world s) ∧
     (POST env req s).2 =
       if to_string_throws (event_orderId event) then Uncaught
       else Responded
              (json [("message", "Internal server error while updating order.")] 500)) ∧
    (notification_ok env = false →
     cart_findOne_ok env = true → cart_save_ok env = true →
     outbox (world (POST env req s).1) = outbox (world s) ∧
     (POST env req s).2 =
       if to_string_throws (event_orderId event) then Uncaught
       else Responded (json [("status", "ok")] 200)).
Proof.
  intros Hd Hc Ht Hf Hp Hcon Hfo Hsv.
  destruct (POST_saved env req s event doc order) as (Ho & Hout & Hfail & Hok);
    try done.
  pose proof (finds_lookup _ _ _ _ Hf) as Hdoc.
  assert (orders (world (POST env req s).1) !! doc =
          Some (apply_charge env (event_reference event) order)) as Hnew.
  { rewrite Ho. apply list_lookup_insert_eq. by eapply lookup_lt_Some. }
  exists (apply_charge env (event_reference event) order).
  split_and!; try done.
  - intros Heq. rewrite Heq, Hdoc in Hnew. injection Hnew as Hnew.
    apply Hp. by rewrite Hnew.
  - intros Hn Hcf Hcs. rewrite Hn in Hout. split; [done|].
    by destruct Hok as [_ ->]; auto.
Qed.

(** C10.  For a correctly signed event of kind 'charge.success' whose
    envelope has no [data] (or a [null] one), destructuring [event.data]
    throws before the [try] is entered: the exception leaves the handler
    uncaught, no response is built, no collaborator is called and nothing
    is changed. *)
Theorem missing_data_throws env req s event :
  delivers env req event →
  event_kind event = JStr "charge.success" →
  nullish (event_data event) = true →
  POST env req s = (s, Uncaught).
Proof.
  intros Hd Hk Hdata. rewrite (POST_delivered _ _ _ _ Hd).
  by rewrite handle_no_data.
Qed.

(** ** Beyond the claims *)

(** X1.  When the secret is not configured, or is the empty string, every
    request is answered 500 'Server configuration error.' before anything
    else is looked at: whatever its signature, nothing is decoded, no
    collaborator is called and the stores are as before. *)
Theorem unconfigured_secret_is_500 env req s :
  secret env = None ∨ secret env = Some "" →
  POST env req s =
  (s, Responded (json [("message", "Server configuration error.")] 500)).
Proof. unfold POST, handler. by intros [-> | ->]. Qed.

(** X2.  When the lookup of a charge.success event succeeds but no stored
    order has the id, nothing is written and the calls are the connect
    and the lookup; the handler answers 404 'Order not found' when the
    order id can be converted to a string for the log line, and otherwise
    ends with an uncaught exception. *)
Theorem unknown_order_is_404 env req s event k :
  delivers env req event → charge_success event →
  truthy (event_orderId event) = true →
  connectDB_ok env = true → order_findOne_ok env = true →
  filter_key (event_orderId event) = Some k →
  (∀ o, o ∈ orders (world s) → Order.orderId o ≠ k) →
  POST env req s =
  ({| world := world s;
      calls := calls s ++ [ConnectDB; OrderFindOne (event_orderId event)] |},
   if to_string_throws (event_orderId event) then Uncaught
   else Responded (json [("status", "error"); ("message", "Order not found")] 404)).
Proof.
  intros Hd Hc Ht Hcon Hfo Hk Hnone.
  assert (list_find (λ o, Order.orderId o = k) (orders (world s)) = None) as Hfind
    by (by apply list_find_None, Forall_forall).
  pose proof (truthy_member _ _ Ht) as Hm.
  rewrite (POST_answer _ _ _ _ Hd Hc). unfold event_orderId in *.
  rewrite <- answer_return. mrun. rewrite Hcon, Hm. mrun. rewrite Ht, Hfo. mrun.
  rewrite Hk. mrun. rewrite Hfind. rewrite <- (assoc_L (++)).
  by destruct (to_string_throws (member (event_metadata event) "orderId")).
Qed.

(** X3.  For a charge.success event, a failing database connection, or
    (with a usable order id) a failing or uncastable order lookup, is
    caught: the stores are untouched and no call follows the failed one.
    The [catch] answers 500 'Internal server error while updating order.',
    unless the order id cannot be converted to a string for its log line,
    in which case the exception leaves the handler. *)
Theorem lookup_failure_is_500 env req s event :
  delivers env req event → charge_success event →
  connectDB_ok env = false ∨
  (truthy (event_orderId event) = true ∧
   (order_findOne_ok env = false ∨ filter_key (event_orderId event) = None)) →
  ∃ t,
    POST env req s =
    ({| world := world s; calls := calls s ++ t |},
     if to_string_throws (event_orderId event) then Uncaught
     else Responded
            (json [("message", "Internal server error while updating order.")] 500)) ∧
    (t = [ConnectDB] ∨ t = [ConnectDB; OrderFindOne (event_orderId event)]).
Proof.
  intros Hd Hc Hfail. rewrite (POST_answer _ _ _ _ Hd Hc).
  unfold event_orderId in *. rewrite <- answer_throw.
  destruct (connectDB_ok env) eqn:Hcon.
  - destruct Hfail as [|[Ht Hfail]]; [done|].
    pose proof (truthy_member _ _ Ht) as Hm.
    exists [ConnectDB; OrderFindOne (member (event_metadata event) "orderId")].
    split; [|by right].
    mrun. rewrite Hcon, Hm. mrun. rewrite Ht. mrun.
    destruct Hfail as [Hfo|Hk].
    + rewrite Hfo. mrun. by rewrite <- (assoc_L (++)).
    + rewrite Hk. destruct (order_findOne_ok env); mrun; by rewrite <- ?(assoc_L (++)).
  - exists [ConnectDB]. split; [|by left]. mrun. by rewrite Hcon.
Qed.

(** X4.  When [order.save] throws, the update made to the document in
    memory is lost: the stores are exactly as before, no notification is
    sent and the cart is not read.  The [catch] answers 500, unless the
    order id cannot be converted to a string for its log line, in which
    case the exception leaves the handler. *)
Theorem failed_save_changes_nothing env req s event doc order :
  delivers env req event → charge_success event →
  truthy (event_orderId event) = true →
  finds (world s) (event_orderId event) doc order →
  Payment.status (Order.payment order) ≠ "Completed" →
  connectDB_ok env = true → order_findOne_ok env = true →
  order_save_ok env = false →
  POST env req s =
  ({| world := world s;
      calls := calls s ++ [ConnectDB; OrderFindOne (event_orderId event); OrderSave doc] |},
   if to_string_throws (event_orderId event) then Uncaught
   else Responded
          (json [("message", "Internal server error while updating order.")] 500)).
Proof.
  intros Hd Hc Ht (k & Hk & Hfind) Hp%eqb_Completed Hcon Hfo Hsv.
  destruct (charge_success_shape _ Hc) as [_ Hdata].
  pose proof (truthy_member _ _ Ht) as Hm.
  rewrite (POST_answer _ _ _ _ Hd Hc). unfold event_orderId in *.
  rewrite <- answer_throw.
  mrun. rewrite Hcon, Hm. mrun. rewrite Ht, Hfo. mrun.
  rewrite Hk. mrun. rewrite Hfind, Hp, Hdata. mrun. rewrite Hsv. mrun.
  by rewrite <- !(assoc_L (++)).
Qed.

(** X5.  Whatever the request, the environment and the stores, the handler
    either throws or gives one of six answers: 200 ok, 400 missing order
    id, 403, 404, and the two 500s. *)
Theorem responses_are_six env req s :
  (POST env req s).2 ∈
  [Uncaught;
   Responded ok_response;
   Responded (json [("status", "error"); ("message", "Missing orderId")] 400);
   Responded (json [("message", "Forbidden: Invalid signature.")] 403);
   Responded (json [("status", "error"); ("message", "Order not found")] 404);
   Responded (json [("message", "Server configuration error.")] 500);
   Responded (json [("message", "Internal server error while updating order.")] 500)].
Proof.
  set (answers := [Uncaught; _; _; _; _; _; _]).
  apply (POST_cases (λ (_ : Sys) (out : Outcome), out ∈ answers));
    intros; try listed.
  apply (process_charge_cases
           (λ (_ : Sys) (c : Completion ()), answer (event_metadata event) c ∈ answers));
    cbn zeta; cases_intro; unfold answer;
    repeat match goal with |- context [to_string_throws ?v] =>
             destruct (to_string_throws v) end;
    listed.
Qed.

(** X6.  An exception leaves the handler exactly when the request is
    correctly signed and its body does not decode, decodes to [null], is a
    charge.success envelope without [data], or is a charge.success event
    with status success whose order id cannot be converted to a string.
    For every other request each failure of a collaborator is caught; for
    the last kind the handler never answers. *)
Theorem uncaught_iff env req s :
  (POST env req s).2 = Uncaught ↔
  correctly_signed env req ∧
  (JSON_parse (body req) = None ∨
   ∃ event, JSON_parse (body req) = Some event ∧
     (nullish event = true ∨
      event_kind event = JStr "charge.success" ∧ nullish (event_data event) = true ∨
      charge_success event ∧ to_string_throws (event_orderId event) = true)).
Proof.
  split.
  - apply (POST_cases (λ (_ : Sys) (out : Outcome), out = Uncaught → _));
      try discriminate.
    + auto.
    + intros event [Hs Hp] He _. split; [done|]. right. exists event. auto.
    + intros event [Hs Hp] Hk Hdata _. split; [done|]. right. exists event. auto.
    + intros event [Hs Hp] Hc Hthrown. split; [done|]. right. exists event.
      split; [done|]. right. right. split; [done|].
      unfold answer in Hthrown. rewrite optional_member_member in Hthrown.
      fold (event_orderId event) in Hthrown.
      destruct (process_charge env (event_data event) (event_metadata event) s).2;
        try discriminate.
      by destruct (to_string_throws (event_orderId event)).
  - intros [Hs [Hp|(event & Hp & Hbad)]].
    + unfold POST. rewrite handler_signed by done. unfold parse. by rewrite Hp.
    + assert (delivers env req event) as Hd by done.
      destruct Hbad as [He|[[Hk Hdata]|[Hc Hts]]].
      * rewrite (POST_delivered _ _ _ _ Hd). unfold handle_event.
        by rewrite prop_bind_nullish.
      * by rewrite (POST_delivered _ _ _ _ Hd), handle_no_data.
      * rewrite (POST_answer _ _ _ _ Hd Hc). cbn [snd].
        unfold event_orderId in Hts.
        pose proof (to_string_throws_truthy _ Hts) as Ht.
        apply (process_charge_cases
                 (λ (_ : Sys) (c : Completion ()),
                    answer (event_metadata event) c = Uncaught));
          cbn zeta; rewrite ?Hts; cases_intro;
          first [congruence | by rewrite answer_throw, Hts].
Qed.

(** X7.  The collaborators are only ever called in the order connect,
    order lookup, order save, notification, cart lookup, cart save, none
    being skipped before the run stops; and none is called at all unless
    the request delivers a correctly signed charge.success event with
    status success. *)
Theorem calls_follow_the_pipeline env req s :
  ∃ t,
    calls (POST env req s).1 = calls s ++ t ∧
    (∃ oid doc note owner cdoc,
       t `prefix_of` [ConnectDB; OrderFindOne oid; OrderSave doc;
                      SendNotification note; CartFindOne owner; CartSave cdoc]) ∧
    (t ≠ [] → ∃ event, delivers env req event ∧ charge_success event).
Proof.
  pose (quiet := λ (s' : Sys), ∃ t,
    calls s' = calls s ++ t ∧
    (∃ oid doc note owner cdoc,
       t `prefix_of` [ConnectDB; OrderFindOne oid; OrderSave doc;
                      SendNotification note; CartFindOne owner; CartSave cdoc]) ∧
    (t ≠ [] → ∃ event, delivers env req event ∧ charge_success event)).
  pose (junk := payment_notification (Order.mk "" "" (Payment.mk "" JUndefined) "" [])).
  assert (quiet s) as Hquiet.
  { exists []. split_and!; [by rewrite app_nil_r| |done].
    exists JUndefined, 0, junk, "", 0. apply prefix_nil. }
  apply (POST_cases (λ (s' : Sys) (_ : Outcome), quiet s')); try done.
  intros event Hd Hc.
  assert (∀ w t oid doc note owner cdoc,
    t `prefix_of` [ConnectDB; OrderFindOne oid; OrderSave doc;
                   SendNotification note; CartFindOne owner; CartSave cdoc] →
    quiet {| world := w; calls := calls s ++ t |}) as Hlog.
  { intros w t oid doc note owner cdoc Ht. exists t. split_and!; [done| |by eauto].
    by exists oid, doc, note, owner, cdoc. }
  apply (process_charge_cases (λ (s' : Sys) (_ : Completion ()), quiet s')).
  - intros _. eapply (Hlog _ _ JUndefined 0 junk "" 0). by eexists.
  - intros _ _ _. eapply (Hlog _ _ JUndefined 0 junk "" 0). by eexists.
  - intros _ _ _. eapply (Hlog _ _ _ 0 junk "" 0). by eexists.
  - intros k _ _ _ _ _. eapply (Hlog _ _ _ 0 junk "" 0). by eexists.
  - intros doc order _ _ _ _ _. eapply (Hlog _ _ _ 0 junk "" 0). by eexists.
  - intros doc order _ _ _ _ _ _. eapply (Hlog _ _ _ 0 junk "" 0). by eexists.
  - intros doc order _ _ _ _ _ _ _. eapply (Hlog _ _ _ _ junk "" 0). by eexists.
  - intros doc order _ _ _ _ _ _ _. cbn zeta.
    split_and!;
      [intros _; eapply (Hlog _ _ _ _ _ _ 0)
      |intros _ _; eapply (Hlog _ _ _ _ _ _ 0)
      |intros cdoc cart _ _; split; intros _; eapply Hlog];
      by eexists.
Qed.

(** X8.  No request adds, removes or moves a document, or changes an
    order's id or user or a cart's user. *)
Theorem documents_keep_their_identity env req s :
  Order.orderId <$> orders (world (POST env req s).1) =
    Order.orderId <$> orders (world s) ∧
  Order.user <$> orders (world (POST env req s).1) =
    Order.user <$> orders (world s) ∧
  Cart.user <$> carts (world (POST env req s).1) =
    Cart.user <$> carts (world s).
Proof.
  pose (same := λ (s' : Sys),
    Order.orderId <$> orders (world s') = Order.orderId <$> orders (world s) ∧
    Order.user <$> orders (world s') = Order.user <$> orders (world s) ∧
    Cart.user <$> carts (world s') = Cart.user <$> carts (world s)).
  apply (POST_cases (λ (s' : Sys) (_ : Outcome), same s')); try done.
  intros event Hd Hc.
  apply (process_charge_cases (λ (s' : Sys) (_ : Completion ()), same s')); try done.
  intros doc order _ _ _ Hf _ _ _. cbn zeta. subst same. cbn.
  apply finds_lookup in Hf.
  assert (∀ (f : Order.t → string) saved, f saved = f order →
            f <$> <[doc := saved]> (orders (world s)) = f <$> orders (world s)) as Hsave.
  { intros f saved Hsame. rewrite list_fmap_insert, Hsame.
    apply list_insert_id. by rewrite list_lookup_fmap, Hf. }
  assert (∀ cdoc cart,
            list_find (λ c, Cart.user c = Order.user order) (carts (world s)) =
              Some (cdoc, cart) →
            Cart.user <$> <[cdoc := Cart.mk (Cart.user cart) []]> (carts (world s)) =
            Cart.user <$> carts (world s)) as Hclear.
  { intros cdoc cart Hfind. apply list_find_Some in Hfind as (Hcart & _ & _).
    rewrite list_fmap_insert.
    apply list_insert_id. by rewrite list_lookup_fmap, Hcart. }
  cases_intro; first [done | by apply Hsave | by eapply Hclear].
Qed.

(** X9.  The only change a request ever makes to the orders is to put, in
    place of the unpaid order it found for a charge.success event, that
    order as updated by the payment. *)
Theorem orders_change_only_by_payment env req s :
  orders (world (POST env req s).1) = orders (world s) ∨
  ∃ event doc order,
    delivers env req event ∧ charge_success event ∧
    finds (world s) (event_orderId event) doc order ∧
    Payment.status (Order.payment order) ≠ "Completed" ∧
    order_save_ok env = true ∧
    orders (world (POST env req s).1) =
      <[doc := apply_charge env (event_reference event) order]> (orders (world s)).
Proof.
  pose (change := λ (s' : Sys),
    orders (world s') = orders (world s) ∨
    ∃ event doc order,
      delivers env req event ∧ charge_success event ∧
      finds (world s) (event_orderId event) doc order ∧
      Payment.status (Order.payment order) ≠ "Completed" ∧
      order_save_ok env = true ∧
      orders (world s') =
        <[doc := apply_charge env (event_reference event) order]> (orders (world s))).
  apply (POST_cases (λ (s' : Sys) (_ : Outcome), change s')); try by left.
  intros event Hd Hc.
  apply (process_charge_cases (λ (s' : Sys) (_ : Completion ()), change s'));
    try by left.
  intros doc order _ _ _ Hf Hp _ Hsv. cbn zeta.
  assert (∀ w, orders w =
            <[doc := apply_charge env (event_reference event) order]> (orders (world s)) →
          ∀ c, change {| world := w; calls := c |}) as Hsaved.
  { intros w Hw c. right. by exists event, doc, order. }
  cases_intro; by apply Hsaved.
Qed.

(** X10.  An order whose payment is 'Completed' is never modified, by any
    request in any environment. *)
Theorem paid_orders_are_frozen env req s i o :
  orders (world s) !! i = Some o →
  Payment.status (Order.payment o) = "Completed" →
  orders (world (POST env req s).1) !! i = Some o.
Proof.
  intros Hi Hpaid.
  apply (POST_cases (λ (s' : Sys) (_ : Outcome), orders (world s') !! i = Some o));
    try done.
  intros event Hd Hc.
  apply (process_charge_cases
           (λ (s' : Sys) (_ : Completion ()), orders (world s') !! i = Some o));
    try done.
  intros doc order _ _ _ Hf Hp _ _. cbn zeta.
  assert (<[doc := apply_charge env (member (event_data event) "reference") order]>
            (orders (world s)) !! i = Some o) as Hkeep.
  { destruct (decide (doc = i)) as [->|Hne].
    - apply finds_lookup in Hf. congruence.
    - by rewrite list_lookup_insert_ne. }
  cases_intro; exact Hkeep.
Qed.

(** X11.  Side effects follow the save: if a request leaves the orders as
    they were, it also leaves the carts as they were and delivers no
    notification. *)
Theorem nothing_changes_unless_order_saved env req s :
  orders (world (POST env req s).1) = orders (world s) →
  world (POST env req s).1 = world s.
Proof.
  apply (POST_cases (λ (s' : Sys) (_ : Outcome),
           orders (world s') = orders (world s) → world s' = world s)); try done.
  intros event Hd Hc.
  apply (process_charge_cases
           (λ (s' : Sys) (_ : Completion ()),
              orders (world s') = orders (world s) → world s' = world s));
    try done.
  intros doc order _ _ _ Hf Hp _ _. cbn zeta.
  assert (<[doc := apply_charge env (member (event_data event) "reference") order]>
            (orders (world s)) ≠ orders (world s)) as Hne.
  { intros Heq. apply finds_lookup in Hf as Hdoc.
    pose proof (list_lookup_insert_eq (orders (world s)) doc
                  (apply_charge env (member (event_data event) "reference") order)
                  (lookup_lt_Some _ _ _ Hdoc)) as Hnew.
    rewrite Heq, Hdoc in Hnew. injection Hnew as Hnew. apply Hp. by rewrite Hnew. }
  cases_intro; done.
Qed.

(** X12.  On the successful path the first cart of the order's user gets
    an empty item list and no other cart is touched; when that user has no
    cart nothing is written to the carts.  The answer is then 200, unless
    the order id cannot be converted to a string for the log lines that
    follow, in which case the exception leaves the handler with the cart
    already emptied. *)
Theorem cart_is_emptied env req s event doc order :
  delivers env req event → charge_success event →
  truthy (event_orderId event) = true →
  finds (world s) (event_orderId event) doc order →
  Payment.status (Order.payment order) ≠ "Completed" →
  connectDB_ok env = true → order_findOne_ok env = true → order_save_ok env = true →
  cart_findOne_ok env = true → cart_save_ok env = true →
  (POST env req s).2 =
    (if to_string_throws (event_orderId event) then Uncaught
     else Responded (json [("status", "ok")] 200)) ∧
  (list_find (λ c, Cart.user c = Order.user order) (carts (world s)) = None →
   carts (world (POST env req s).1) = carts (world s)) ∧
  (∀ cdoc cart,
     list_find (λ c, Cart.user c = Order.user order) (carts (world s)) =
       Some (cdoc, cart) →
     carts (world (POST env req s).1) =
       <[cdoc := Cart.mk (Cart.user cart) []]> (carts (world s))).
Proof.
  intros Hd Hc Ht Hf Hp Hcon Hfo Hsv Hcf Hcs.
  destruct (POST_saved env req s event doc order) as (_ & _ & _ & Hok); try done.
  destruct Hok as [Hcarts Hout]; [done|by left|].
  split_and!; [done| |].
  - intros Hnone. by rewrite Hcarts, Hnone.
  - intros cdoc cart Hcart. by rewrite Hcarts, Hcart.
Qed.

(** X13.  Once the order is saved and the notification service answers,
    exactly one notification is delivered, to the order's user, with the
    order id in its body and in its link, whatever happens to the cart
    afterwards. *)
Theorem buyer_is_notified env req s event doc order :
  delivers env req event → charge_success event →
  truthy (event_orderId event) = true →
  finds (world s) (event_orderId event) doc order →
  Payment.status (Order.payment order) ≠ "Completed" →
  connectDB_ok env = true → order_findOne_ok env = true → order_save_ok env = true →
  notification_ok env = true →
  outbox (world (POST env req s).1) =
  outbox (world s) ++
  [{| recipient := Order.user order;
      n_title := "Payment Received! 💳";
      n_body := "We've successfully received payment for your order #"
                +:+ Order.orderId order +:+ ". It's now being processed.";
      n_url := "/me/orders/" +:+ Order.orderId order |}].
Proof.
  intros Hd Hc Ht Hf Hp Hcon Hfo Hsv Hn.
  destruct (POST_saved env req s event doc order) as (_ & Hout & _); try done.
  by rewrite Hout, Hn.
Qed.

(** X14.  Once the order is saved, looking the same id up in the resulting
    store yields the updated document, at the position of the old one. *)
Theorem saved_order_is_found_again env req s event doc order :
  delivers env req event → charge_success event →
  truthy (event_orderId event) = true →
  finds (world s) (event_orderId event) doc order →
  Payment.status (Order.payment order) ≠ "Completed" →
  connectDB_ok env = true → order_findOne_ok env = true → order_save_ok env = true →
  finds (world (POST env req s).1) (event_orderId event) doc
    (apply_charge env (event_reference event) order).
Proof.
  intros Hd Hc Ht Hf Hp Hcon Hfo Hsv.
  destruct (POST_saved env req s event doc order) as (Ho & _); try done.
  eapply finds_after_save; [exact Hf|reflexivity|exact Ho].
Qed.

(** X15.  If the cart could not be read or written after the save, the
    carts are unchanged and the request is not acknowledged; delivering it
    again then only connects and looks the order up, so the cart is never
    cleared by the retry.  The first delivery is answered 500 and the
    second 200, unless the order id cannot be converted to a string for
    the log lines, in which case both end with an uncaught exception. *)
Theorem redelivery_never_clears_the_cart env1 env2 req s event doc order :
  delivers env1 req event → charge_success event →
  truthy (event_orderId event) = true →
  finds (world s) (event_orderId event) doc order →
  Payment.status (Order.payment order) ≠ "Completed" →
  connectDB_ok env1 = true → order_findOne_ok env1 = true → order_save_ok env1 = true →
  cart_findOne_ok env1 = false ∨
  cart_save_ok env1 = false ∧
  is_Some (list_find (λ c, Cart.user c = Order.user order) (carts (world s))) →
  secret env2 = secret env1 →
  connectDB_ok env2 = true → order_findOne_ok env2 = true →
  (POST env1 req s).2 =
    (if to_string_throws (event_orderId event) then Uncaught
     else Responded
            (json [("message", "Internal server error while updating order.")] 500)) ∧
  POST env2 req (POST env1 req s).1 =
    ({| world := world (POST env1 req s).1;
        calls := calls (POST env1 req s).1 ++
                 [ConnectDB; OrderFindOne (event_orderId event)] |},
     if to_string_throws (event_orderId event) then Uncaught
     else Responded (json [("status", "ok")] 200)) ∧
  carts (world (POST env1 req s).1) = carts (world s).
Proof.
  intros Hd Hc Ht Hf Hp Hcon Hfo Hsv Hcart Hsecret Hcon2 Hfo2.
  assert (delivers env2 req event) as Hd2.
  { destruct Hd as [(k & Hk & Hne & Hsig) Hparse]. split; [|done].
    exists k. by rewrite Hsecret. }
  destruct (POST_saved env1 req s event doc order) as (Ho & _ & Hfail & _); try done.
  destruct (Hfail Hcart) as [Hcarts Hout].
  split_and!; [done| |done].
  apply POST_completed with doc (apply_charge env1 (event_reference event) order);
    try done.
  eapply finds_after_save; [exact Hf|reflexivity|exact Ho].
Qed.

(** X16.  The update of the order keeps every timeline entry in place with
    its title, description and timestamp, and appends one entry. *)
Theorem timeline_keeps_its_entries env reference order :
  TimelineEntry.title <$> Order.timeline (apply_charge env reference order) =
    (TimelineEntry.title <$> Order.timeline order) ++ ["Processing"] ∧
  TimelineEntry.description <$> Order.timeline (apply_charge env reference order) =
    (TimelineEntry.description <$> Order.timeline order) ++
    ["We are preparing your items for shipment at the warehouse."] ∧
  TimelineEntry.timestamp <$> Order.timeline (apply_charge env reference order) =
    (TimelineEntry.timestamp <$> Order.timeline order) ++ [now env].
Proof.
  assert (∀ {A} (f : TimelineEntry.t → A),
            (∀ e, f (mark_completed e) = f e) →
            f <$> confirm (Order.timeline order) = f <$> Order.timeline order) as Hkeep.
  { intros A f Hf. unfold confirm.
    destruct (list_find _ (Order.timeline order)) as [[i e]|] eqn:Hfind; [|done].
    apply list_find_Some in Hfind as (Hi & _ & _).
    rewrite list_fmap_insert, Hf. apply list_insert_id.
    by rewrite list_lookup_fmap, Hi. }
  cbn [apply_charge Order.timeline]. rewrite !fmap_snoc, !Hkeep by done. done.
Qed.

Lemma process_charge_notification ok env data metadata s :
  apart_from_outbox (process_charge (set_notification ok env) data metadata s) =
  apart_from_outbox (process_charge env data metadata s).
Proof.
  unfold apart_from_outbox. mrun.
  cbn [set_notification connectDB_ok order_findOne_ok order_save_ok notification_ok
       cart_findOne_ok cart_save_ok].
  change (apply_charge (set_notification ok env)) with (apply_charge env).
  destruct (connectDB_ok env); mrun; [|done].
  destruct (nullish metadata); mrun; [done|].
  destruct (truthy (member metadata "orderId")); mrun; [|done].
  destruct (order_findOne_ok env); mrun; [|done].
  destruct (filter_key (member metadata "orderId")) as [k|]; mrun; [|done].
  destruct (list_find (λ o, Order.orderId o = k) (orders (world s)))
    as [[doc order]|]; mrun;
    [|by destruct (to_string_throws (member metadata "orderId"))].
  destruct (Payment.status (Order.payment order) =? "Completed"); mrun;
    [by destruct (to_string_throws (member metadata "orderId"))|].
  destruct (nullish data); mrun; [done|].
  destruct (order_save_ok env); mrun; [|done].
  change (Order.user (apply_charge env (member data "reference") order))
    with (Order.user order).
  destruct ok, (notification_ok env); mrun.
  all: destruct (cart_findOne_ok env); mrun; [|done].
  all: destruct (list_find (λ c, Cart.user c = Order.user order) (carts (world s)))
    as [[cdoc cart]|]; mrun;
    [|by destruct (to_string_throws (member metadata "orderId"))].
  all: destruct (cart_save_ok env); mrun; [|done].
  all: by destruct (to_string_throws (member metadata "orderId")).
Qed.

Lemma handle_event_notification ok env event s :
  apart_from_outbox (handle_event (set_notification ok env) event s) =
  apart_from_outbox (handle_event env event s).
Proof.
  unfold handle_event.
  destruct (nullish event) eqn:He;
    [by rewrite !(prop_bind_nullish event "event") by done|].
  rewrite !(prop_bind event "event") by done. cbv beta.
  destruct (strict_eq_str _ "charge.success"); [|reflexivity].
  rewrite !(prop_bind event "data") by done. cbv beta.
  destruct (nullish (member event "data")) eqn:Hd;
    [by rewrite !(prop_bind_nullish (member event "data") "status") by done|].
  rewrite !(prop_bind (member event "data") "status") by done. cbv beta.
  rewrite !(prop_bind (member event "data") "metadata") by done. cbv beta.
  destruct (strict_eq_str _ "success"); [|reflexivity].
  pose proof (process_charge_notification ok env (member event "data")
                (member (member event "data") "metadata") s) as Hsame.
  unfold apart_from_outbox, try_catch, on_error, interpolate, return_, throw,
    mbind, M_bind, bind, ret in *.
  destruct (process_charge (set_notification ok env) _ _ s) as [s1 c1].
  destruct (process_charge env _ _ s) as [s2 c2].
  cbn [fst snd] in *. injection Hsame as Ho Hc Hl ->.
  destruct c2; cbn [fst snd]; [congruence..|].
  destruct (to_string_throws _); cbn [fst snd]; congruence.
Qed.

(** X17.  Whether the notification service succeeds or throws makes no
    difference to the answer, to the orders, to the carts or to the calls
    made. *)
Theorem notification_outcome_is_invisible ok env req s :
  (POST (set_notification ok env) req s).2 = (POST env req s).2 ∧
  orders (world (POST (set_notification ok env) req s).1) =
    orders (world (POST env req s).1) ∧
  carts (world (POST (set_notification ok env) req s).1) =
    carts (world (POST env req s).1) ∧
  calls (POST (set_notification ok env) req s).1 = calls (POST env req s).1.
Proof.
  unfold POST, handler. cbn [secret set_notification].
  destruct (secret env) as [[|a k]|]; [by split_and!| |by split_and!].
  destruct (bool_decide _); cbn [negb]; [|by split_and!].
  unfold parse. destruct (JSON_parse (body req)) as [event|]; [|by split_and!].
  unfold mbind, M_bind, bind, ret, return_.
  pose proof (handle_event_notification ok env event s) as Hsame.
  unfold apart_from_outbox in Hsame.
  destruct (handle_event (set_notification ok env) event s) as [s1 c1].
  destruct (handle_event env event s) as [s2 c2].
  cbn [fst snd] in *. injection Hsame as Ho Hc Hl ->.
  by destruct c2 as [[]| |].
Qed.

End Properties.

(** ** The claims on the fixtures *)

Lemma fixture_signed text :
  correctly_signed Fixture.digest Fixture.env (Fixture.signed_request text).
Proof. exists "s3cret". split_and!; [reflexivity|discriminate|reflexivity]. Qed.

Lemma fixture_delivers id :
  id = "ORD1" ∨ id = "" →
  delivers Fixture.digest Fixture.JSON_parse Fixture.env
    (Fixture.signed_request (Fixture.charge_body id)) (Fixture.charge_event id).
Proof. intros [->| ->]; (split; [apply fixture_signed|reflexivity]). Qed.

Lemma fixture_delivers_document env :
  secret env = Some "s3cret" →
  delivers Fixture.digest Fixture.JSON_parse_document env
    Fixture.document_request Fixture.document_event.
Proof.
  intros Hk. split; [|reflexivity]. exists "s3cret".
  split_and!; [done|discriminate|reflexivity].
Qed.

(** The scenario of the specification: ORD1 awaits payment, TXN1 arrives. *)
Example paid_once :
  Fixture.run Fixture.env Fixture.charge_request Fixture.pending_store =
  ({| world :=
        {| orders :=
             [Order.mk "ORD1" "U1" (Payment.mk "Completed" (JStr "TXN1")) "Processing"
                [TimelineEntry.mk "Order Placed" "We have received your order."
                   "completed" 1699999000000;
                 TimelineEntry.mk "Order Confirmed" "Awaiting payment."
                   "completed" 1699999000000;
                 TimelineEntry.mk "Processing"
                   "We are preparing your items for shipment at the warehouse."
                   "current" 1700000000000]];
           carts := [Cart.mk "U1" []];
           outbox := [payment_notification (Fixture.order_with "Pending" [])] |};
      calls := [ConnectDB; OrderFindOne (JStr "ORD1"); OrderSave 0;
                SendNotification (payment_notification (Fixture.order_with "Pending" []));
                CartFindOne "U1"; CartSave 0] |},
   Responded (json [("status", "ok")] 200)).
Proof. reflexivity. Qed.

(** Values that [!orderId] takes for missing. *)
Example falsy_orderIds :
  truthy (JStr "") = false ∧ truthy (JNum 0%float) = false ∧
  truthy JNull = false ∧ truthy JUndefined = false ∧ truthy (JStr "0") = true.
Proof. by split_and!. Qed.

(** Values that a template literal cannot convert to a string, and values
    that it can. *)
Example string_conversions :
  to_string_throws Fixture.document_id = true ∧
  to_string_throws (JArr [JNull; JObj [("toString", JNum 0%float)]]) = true ∧
  to_string_throws (JObj [("_id", JStr "ORD1")]) = false ∧
  to_string_throws (JArr [JNull; JStr "ORD1"]) = false ∧
  to_string_throws (JStr "ORD1") = false ∧
  to_string_throws JUndefined = false.
Proof. by split_and!. Qed.

(** A body that decodes to [null] makes the read of [event.event] throw. *)
Example null_event_throws :
  Fixture.run Fixture.env (Fixture.signed_request "null") Fixture.pending_store =
  (Fixture.pending_store, Uncaught).
Proof. reflexivity. Qed.

(** The same event delivered again. *)
Example paid_twice :
  let once := (Fixture.run Fixture.env Fixture.charge_request Fixture.pending_store).1 in
  Fixture.run Fixture.env Fixture.charge_request once =
  ({| world := world once;
      calls := calls once ++ [ConnectDB; OrderFindOne (JStr "ORD1")] |},
   Responded (json [("status", "ok")] 200)).
Proof. reflexivity. Qed.

(** C1 as stated fails: when the event gives the order id as a document
    with a [toString] entry, the paid order is found, the log line of the
    guard throws, the log line of the [catch] throws again, and the
    handler ends without the 200. *)
Lemma completed_order_unacknowledged :
  delivers Fixture.digest Fixture.JSON_parse_document Fixture.env
    Fixture.document_request Fixture.document_event ∧
  charge_success Fixture.document_event ∧
  finds Fixture.cast_document (world Fixture.settled_store)
    (event_orderId Fixture.document_event) 0
    (Fixture.order_with "Completed" [Fixture.placed; Fixture.confirmed]) ∧
  Fixture.run_document Fixture.env Fixture.document_request Fixture.settled_store =
  ({| world := world Fixture.settled_store;
      calls := [ConnectDB; OrderFindOne Fixture.document_id] |},
   Uncaught).
Proof.
  split_and!; [by apply fixture_delivers_document|by split| |reflexivity].
  exists "ORD1". split; reflexivity.
Qed.

Lemma completed_order_is_settled_witness :
  Fixture.run Fixture.env Fixture.charge_request Fixture.settled_store =
    ({| world := world Fixture.settled_store;
        calls := [ConnectDB; OrderFindOne (JStr "ORD1")] |},
     Responded (json [("status", "ok")] 200)) ∧
  ∀ env1 env2 s1,
    world (Fixture.run env1 Fixture.charge_request s1).1 ≠ world s1 ∨
    (Fixture.run env1 Fixture.charge_request s1).2 =
      Responded (json [("status", "ok")] 200) →
    world (Fixture.run env2 Fixture.charge_request
             (Fixture.run env1 Fixture.charge_request s1).1).1 =
    world (Fixture.run env1 Fixture.charge_request s1).1.
Proof.
  apply (completed_order_is_settled Fixture.digest Fixture.JSON_parse
           Fixture.cast_orderId Fixture.env Fixture.charge_request
           Fixture.settled_store (Fixture.charge_event "ORD1") 0
           (Fixture.order_with "Completed" [Fixture.placed; Fixture.confirmed])).
  - apply fixture_delivers. by left.
  - split; reflexivity.
  - reflexivity.
  - reflexivity.
  - reflexivity.
  - exists "ORD1". split; reflexivity.
  - reflexivity.
Defined.

(** C2 as stated fails.  With the cart collection unreadable the order is
    paid and the answer is 500; when the event gives the order id as a
    document with a [toString] entry, the order is paid, the cart is
    emptied and the handler ends with an uncaught exception; and when the
    save fails the stored order is as before and the answer is 500. *)
Lemma paid_without_200 :
  (delivers Fixture.digest Fixture.JSON_parse Fixture.env_cart_down
     Fixture.charge_request (Fixture.charge_event "ORD1") ∧
   charge_success (Fixture.charge_event "ORD1") ∧
   finds Fixture.cast_orderId (world Fixture.pending_store)
     (event_orderId (Fixture.charge_event "ORD1")) 0
     (Fixture.order_with "Pending" [Fixture.placed; Fixture.confirmed]) ∧
   (Payment.status ∘ Order.payment) <$>
     orders (world (Fixture.run Fixture.env_cart_down Fixture.charge_request
                      Fixture.pending_store).1) = ["Completed"] ∧
   (Fixture.run Fixture.env_cart_down Fixture.charge_request Fixture.pending_store).2 =
     Responded (json [("message", "Internal server error while updating order.")] 500)) ∧
  (delivers Fixture.digest Fixture.JSON_parse_document Fixture.env
     Fixture.document_request Fixture.document_event ∧
   charge_success Fixture.document_event ∧
   finds Fixture.cast_document (world Fixture.pending_store)
     (event_orderId Fixture.document_event) 0
     (Fixture.order_with "Pending" [Fixture.placed; Fixture.confirmed]) ∧
   (Payment.status ∘ Order.payment) <$>
     orders (world (Fixture.run_document Fixture.env Fixture.document_request
                      Fixture.pending_store).1) = ["Completed"] ∧
   carts (world (Fixture.run_document Fixture.env Fixture.document_request
                   Fixture.pending_store).1) = [Cart.mk "U1" []] ∧
   (Fixture.run_document Fixture.env Fixture.document_request
      Fixture.pending_store).2 = Uncaught) ∧
  (delivers Fixture.digest Fixture.JSON_parse Fixture.env_save_down
     Fixture.charge_request (Fixture.charge_event "ORD1") ∧
   charge_success (Fixture.charge_event "ORD1") ∧
   finds Fixture.cast_orderId (world Fixture.pending_store)
     (event_orderId (Fixture.charge_event "ORD1")) 0
     (Fixture.order_with "Pending" [Fixture.placed; Fixture.confirmed]) ∧
   (Payment.status ∘ Order.payment) <$>
     orders (world (Fixture.run Fixture.env_save_down Fixture.charge_request
                      Fixture.pending_store).1) = ["Pending"] ∧
   (Fixture.run Fixture.env_save_down Fixture.charge_request Fixture.pending_store).2 =
     Responded (json [("message", "Internal server error while updating order.")] 500)).
Proof.
  assert (∀ env, secret env = Some "s3cret" →
            delivers Fixture.digest Fixture.JSON_parse env
              Fixture.charge_request (Fixture.charge_event "ORD1")) as Hd.
  { intros env Hk. split; [|reflexivity]. exists "s3cret".
    split_and!; [done|discriminate|reflexivity]. }
  split_and!; try reflexivity.
  - by apply Hd.
  - by split.
  - exists "ORD1". split; reflexivity.
  - by apply fixture_delivers_document.
  - by split.
  - exists "ORD1". split; reflexivity.
  - by apply Hd.
  - by split.
  - exists "ORD1". split; reflexivity.
Qed.

Lemma charge_success_applies_witness :
  ∃ order' tl,
    orders (world (Fixture.run Fixture.env Fixture.charge_request
                     Fixture.pending_store).1) =
      <[0 := order']> (orders (world Fixture.pending_store)) ∧
    orders (world (Fixture.run Fixture.env Fixture.charge_request
                     Fixture.pending_store).1) !! 0 = Some order' ∧
    Order.orderId order' = "ORD1" ∧
    Order.user order' = "U1" ∧
    Order.payment order' = Payment.mk "Completed" (JStr "TXN1") ∧
    Order.status order' = "Processing" ∧
    Order.timeline order' =
      tl ++ [TimelineEntry.mk "Processing"
               "We are preparing your items for shipment at the warehouse."
               "current" 1700000000000] ∧
    length tl = 2 ∧
    (∀ i e,
       list_find (λ e, TimelineEntry.title e = "Order Confirmed")
         [Fixture.placed; Fixture.confirmed] = Some (i, e) →
       tl !! i =
       Some (TimelineEntry.mk (TimelineEntry.title e) (TimelineEntry.description e)
               "completed" (TimelineEntry.timestamp e))) ∧
    (∀ i e, [Fixture.placed; Fixture.confirmed] !! i = Some e →
       (∀ e', list_find (λ e, TimelineEntry.title e = "Order Confirmed")
                [Fixture.placed; Fixture.confirmed] ≠ Some (i, e')) →
       tl !! i = Some e) ∧
    (cart_findOne_ok Fixture.env = true → cart_save_ok Fixture.env = true →
     to_string_throws (JStr "ORD1") = false →
     (Fixture.run Fixture.env Fixture.charge_request Fixture.pending_store).2 =
       Responded (json [("status", "ok")] 200)).
Proof.
  apply (charge_success_applies Fixture.digest Fixture.JSON_parse
           Fixture.cast_orderId Fixture.env Fixture.charge_request
           Fixture.pending_store (Fixture.charge_event "ORD1") 0
           (Fixture.order_with "Pending" [Fixture.placed; Fixture.confirmed])).
  - apply fixture_delivers. by left.
  - split; reflexivity.
  - reflexivity.
  - exists "ORD1". split; reflexivity.
  - discriminate.
  - reflexivity.
  - reflexivity.
  - reflexivity.
Defined.

Lemma bad_signature_rejected_witness :
  Fixture.run Fixture.env
    {| body := Fixture.charge_body "ORD1"; signature := None |}
    Fixture.pending_store =
  (Fixture.pending_store,
   Responded (json [("message", "Forbidden: Invalid signature.")] 403)).
Proof.
  apply (bad_signature_rejected Fixture.digest Fixture.JSON_parse
           Fixture.cast_orderId Fixture.env
           {| body := Fixture.charge_body "ORD1"; signature := None |}
           Fixture.pending_store "s3cret").
  - reflexivity.
  - discriminate.
  - discriminate.
Defined.

(** C4 as stated fails.  An order whose timeline holds a current entry
    under another title has two current entries after its first
    successful application; and of two earlier entries titled 'Order
    Confirmed' only the first is set to 'completed', the second keeps its
    status 'current'. *)
Lemma timeline_two_current :
  ((Fixture.run Fixture.env Fixture.charge_request Fixture.awaiting_store).2 =
     Responded (json [("status", "ok")] 200) ∧
   Fixture.timeline_at
     (Fixture.run Fixture.env Fixture.charge_request Fixture.awaiting_store).1 0 =
     Some [TimelineEntry.mk "Payment Pending" "Awaiting payment." "current"
             1699999000000;
           TimelineEntry.mk "Processing"
             "We are preparing your items for shipment at the warehouse."
             "current" 1700000000000] ∧
   length (filter (λ e, TimelineEntry.status e = "current")
             [TimelineEntry.mk "Payment Pending" "Awaiting payment." "current"
                1699999000000;
              TimelineEntry.mk "Processing"
                "We are preparing your items for shipment at the warehouse."
                "current" 1700000000000]) = 2) ∧
  ((Fixture.run Fixture.env Fixture.charge_request Fixture.twice_confirmed_store).2 =
     Responded (json [("status", "ok")] 200) ∧
   Fixture.timeline_at
     (Fixture.run Fixture.env Fixture.charge_request Fixture.twice_confirmed_store).1 0 =
     Some [TimelineEntry.mk "Order Confirmed" "Awaiting payment." "completed"
             1699999000000;
           TimelineEntry.mk "Order Confirmed" "Awaiting payment." "current"
             1699999000000;
           TimelineEntry.mk "Processing"
             "We are preparing your items for shipment at the warehouse."
             "current" 1700000000000]).
Proof. split; split_and!; reflexivity. Qed.

Lemma timeline_after_charge_witness :
  ∃ order',
    orders (world (Fixture.run Fixture.env Fixture.charge_request
                     Fixture.pending_store).1) !! 0 = Some order' ∧
    last (Order.timeline order') =
      Some (TimelineEntry.mk "Processing"
              "We are preparing your items for shipment at the warehouse."
              "current" 1700000000000) ∧
    length (Order.timeline order') = 3 ∧
    (∀ i e,
       list_find (λ e, TimelineEntry.title e = "Order Confirmed")
         [Fixture.placed; Fixture.confirmed] = Some (i, e) →
       Order.timeline order' !! i =
       Some (TimelineEntry.mk (TimelineEntry.title e) (TimelineEntry.description e)
               "completed" (TimelineEntry.timestamp e))) ∧
    (∀ i e, [Fixture.placed; Fixture.confirmed] !! i = Some e →
       (∀ e', list_find (λ e, TimelineEntry.title e = "Order Confirmed")
                [Fixture.placed; Fixture.confirmed] ≠ Some (i, e')) →
       Order.timeline order' !! i = Some e) ∧
    (length (filter (λ e, TimelineEntry.status e = "current")
               (Order.timeline order')) = 1 ↔
     ∀ i e, [Fixture.placed; Fixture.confirmed] !! i = Some e →
            TimelineEntry.status e = "current" →
            ∃ e', list_find (λ e, TimelineEntry.title e = "Order Confirmed")
                    [Fixture.placed; Fixture.confirmed] = Some (i, e')).
Proof.
  apply (timeline_after_charge Fixture.digest Fixture.JSON_parse
           Fixture.cast_orderId Fixture.env Fixture.charge_request
           Fixture.pending_store (Fixture.charge_event "ORD1") 0
           (Fixture.order_with "Pending" [Fixture.placed; Fixture.confirmed])).
  - apply fixture_delivers. by left.
  - split; reflexivity.
  - reflexivity.
  - exists "ORD1". split; reflexivity.
  - discriminate.
  - reflexivity.
  - reflexivity.
  - reflexivity.
Defined.

(** C5 as stated fails: without [metadata] the read of [metadata.orderId]
    throws inside the [try] and the answer is 500, not 400. *)
Lemma missing_metadata_is_500 :
  charge_success Fixture.no_metadata_event ∧
  event_orderId Fixture.no_metadata_event = JUndefined ∧
  Fixture.run Fixture.env (Fixture.signed_request Fixture.no_metadata_body)
    Fixture.pending_store =
  ({| world := world Fixture.pending_store; calls := [ConnectDB] |},
   Responded (json [("message", "Internal server error while updating order.")] 500)).
Proof. split_and!; try reflexivity. split; reflexivity. Qed.

Lemma missing_orderId_rejected_witness :
  Fixture.run Fixture.env (Fixture.signed_request (Fixture.charge_body ""))
    Fixture.pending_store =
  ({| world := world Fixture.pending_store; calls := [ConnectDB] |},
   Responded (json [("status", "error"); ("message", "Missing orderId")] 400)).
Proof.
  apply (missing_orderId_rejected Fixture.digest Fixture.JSON_parse
           Fixture.cast_orderId Fixture.env
           (Fixture.signed_request (Fixture.charge_body ""))
           Fixture.pending_store (Fixture.charge_event "")).
  - apply fixture_delivers. by right.
  - split; reflexivity.
  - reflexivity.
  - reflexivity.
  - reflexivity.
Defined.

(** C6 as stated fails: an event of kind 'charge.success' without [data]
    has no status 'success', yet the handler throws instead of answering
    200. *)
Lemma event_without_data_throws :
  delivers Fixture.digest Fixture.JSON_parse Fixture.env
    (Fixture.signed_request Fixture.no_data_body) Fixture.no_data_event ∧
  event_status Fixture.no_data_event ≠ JStr "success" ∧
  Fixture.run Fixture.env (Fixture.signed_request Fixture.no_data_body)
    Fixture.pending_store =
  (Fixture.pending_store, Uncaught).
Proof.
  split_and!; [|discriminate|reflexivity].
  split; [apply fixture_signed|reflexivity].
Qed.

Lemma irrelevant_event_acknowledged_witness :
  Fixture.run Fixture.env (Fixture.signed_request Fixture.failed_body)
    Fixture.pending_store =
  (Fixture.pending_store, Responded ok_response).
Proof.
  apply (irrelevant_event_acknowledged Fixture.digest Fixture.JSON_parse
           Fixture.cast_orderId Fixture.env
           (Fixture.signed_request Fixture.failed_body)
           Fixture.pending_store Fixture.failed_event).
  - split; [apply fixture_signed|reflexivity].
  - reflexivity.
  - left. discriminate.
Defined.

(** C7 as stated fails: on a body that is not JSON the handler builds no
    response at all, so none with a client error status. *)
Lemma malformed_body_no_response :
  Fixture.JSON_parse Fixture.malformed_body = None ∧
  Fixture.run Fixture.env (Fixture.signed_request Fixture.malformed_body)
    Fixture.pending_store =
  (Fixture.pending_store, Uncaught).
Proof. split; reflexivity. Qed.

Lemma malformed_body_throws_witness :
  Fixture.run Fixture.env (Fixture.signed_request Fixture.malformed_body)
    Fixture.pending_store =
  (Fixture.pending_store, Uncaught).
Proof.
  apply (malformed_body_throws Fixture.digest Fixture.JSON_parse
           Fixture.cast_orderId Fixture.env
           (Fixture.signed_request Fixture.malformed_body)
           Fixture.pending_store).
  - apply fixture_signed.
  - reflexivity.
Defined.

(** C9 as stated fails: when the event gives the order id as a document
    with a [toString] entry and the cart collection cannot be read, the
    order is saved, the log line of the [catch] throws and the handler
    ends with an uncaught exception instead of the 500. *)
Lemma cart_failure_uncaught :
  delivers Fixture.digest Fixture.JSON_parse_document Fixture.env_cart_down
    Fixture.document_request Fixture.document_event ∧
  charge_success Fixture.document_event ∧
  finds Fixture.cast_document (world Fixture.pending_store)
    (event_orderId Fixture.document_event) 0
    (Fixture.order_with "Pending" [Fixture.placed; Fixture.confirmed]) ∧
  (Payment.status ∘ Order.payment) <$>
    orders (world (Fixture.run_document Fixture.env_cart_down
                     Fixture.document_request Fixture.pending_store).1) =
    ["Completed"] ∧
  calls (Fixture.run_document Fixture.env_cart_down Fixture.document_request
           Fixture.pending_store).1 =
    [ConnectDB; OrderFindOne Fixture.document_id; OrderSave 0;
     SendNotification (payment_notification (Fixture.order_with "Pending" []));
     CartFindOne "U1"] ∧
  (Fixture.run_document Fixture.env_cart_down Fixture.document_request
     Fixture.pending_store).2 = Uncaught.
Proof.
  split_and!; try reflexivity.
  - by apply fixture_delivers_document.
  - by split.
  - exists "ORD1". split; reflexivity.
Qed.

Lemma cart_failure_after_save_witness :
  ∃ order',
    orders (world (Fixture.run Fixture.env_cart_down Fixture.charge_request
                     Fixture.pending_store).1) !! 0 = Some order' ∧
    Order.payment order' = Payment.mk "Completed" (JStr "TXN1") ∧
    Order.status order' = "Processing" ∧
    orders (world (Fixture.run Fixture.env_cart_down Fixture.charge_request
                     Fixture.pending_store).1) ≠
      orders (world Fixture.pending_store) ∧
    (cart_findOne_ok Fixture.env_cart_down = false ∨
     cart_save_ok Fixture.env_cart_down = false ∧
     is_Some (list_find (λ c, Cart.user c = "U1") [Fixture.cart]) →
     carts (world (Fixture.run Fixture.env_cart_down Fixture.charge_request
                     Fixture.pending_store).1) = [Fixture.cart] ∧
     (Fixture.run Fixture.env_cart_down Fixture.charge_request
        Fixture.pending_store).2 =
       Responded
         (json [("message", "Internal server error while updating order.")] 500)) ∧
    (notification_ok Fixture.env_cart_down = false →
     cart_findOne_ok Fixture.env_cart_down = true →
     cart_save_ok Fixture.env_cart_down = true →
     outbox (world (Fixture.run Fixture.env_cart_down Fixture.charge_request
                      Fixture.pending_store).1) = [] ∧
     (Fixture.run Fixture.env_cart_down Fixture.charge_request
        Fixture.pending_store).2 =
       Responded (json [("status", "ok")] 200)).
Proof.
  apply (cart_failure_after_save Fixture.digest Fixture.JSON_parse
           Fixture.cast_orderId Fixture.env_cart_down Fixture.charge_request
           Fixture.pending_store (Fixture.charge_event "ORD1") 0
           (Fixture.order_with "Pending" [Fixture.placed; Fixture.confirmed])).
  - split; [|reflexivity]. exists "s3cret".
    split_and!; [reflexivity|discriminate|reflexivity].
  - split; reflexivity.
  - reflexivity.
  - exists "ORD1". split; reflexivity.
  - discriminate.
  - reflexivity.
  - reflexivity.
  - reflexivity.
Defined.

(** The order is paid although the answer was 500. *)
Example paid_but_500 :
  Fixture.run Fixture.env_cart_down Fixture.charge_request Fixture.pending_store =
  ({| world :=
        {| orders :=
             [Order.mk "ORD1" "U1" (Payment.mk "Completed" (JStr "TXN1")) "Processing"
                [TimelineEntry.mk "Order Placed" "We have received your order."
                   "completed" 1699999000000;
                 TimelineEntry.mk "Order Confirmed" "Awaiting payment."
                   "completed" 1699999000000;
                 TimelineEntry.mk "Processing"
                   "We are preparing your items for shipment at the warehouse."
                   "current" 1700000000000]];
           carts := [Fixture.cart];
           outbox := [payment_notification (Fixture.order_with "Pending" [])] |};
      calls := [ConnectDB; OrderFindOne (JStr "ORD1"); OrderSave 0;
                SendNotification (payment_notification (Fixture.order_with "Pending" []));
                CartFindOne "U1"] |},
   Responded (json [("message", "Internal server error while updating order.")] 500)).
Proof. reflexivity. Qed.

Lemma missing_data_throws_witness :
  Fixture.run Fixture.env (Fixture.signed_request Fixture.no_data_body)
    Fixture.pending_store =
  (Fixture.pending_store, Uncaught).
Proof.
  apply (missing_data_throws Fixture.digest Fixture.JSON_parse
           Fixture.cast_orderId Fixture.env
           (Fixture.signed_request Fixture.no_data_body)
           Fixture.pending_store Fixture.no_data_event).
  - split; [apply fixture_signed|reflexivity].
  - reflexivity.
  - reflexivity.
Defined.

(** ** The further statements on the fixtures *)

(** The order id given as a document: with the database unreachable the
    log line of the [catch] throws, whatever the cast does. *)
Example unreachable_database_uncaught :
  Fixture.run_document Fixture.env_db_down Fixture.document_request
    Fixture.pending_store =
  ({| world := world Fixture.pending_store; calls := [ConnectDB] |}, Uncaught).
Proof. reflexivity. Qed.

(** The order id given as a document, the order awaiting payment: the
    order is paid, the buyer notified and the cart emptied before the log
    line throws. *)
Example paid_but_uncaught :
  Fixture.run_document Fixture.env Fixture.document_request Fixture.pending_store =
  ({| world :=
        {| orders :=
             [Order.mk "ORD1" "U1" (Payment.mk "Completed" (JStr "TXN1")) "Processing"
                [TimelineEntry.mk "Order Placed" "We have received your order."
                   "completed" 1699999000000;
                 TimelineEntry.mk "Order Confirmed" "Awaiting payment."
                   "completed" 1699999000000;
                 TimelineEntry.mk "Processing"
                   "We are preparing your items for shipment at the warehouse."
                   "current" 1700000000000]];
           carts := [Cart.mk "U1" []];
           outbox := [payment_notification (Fixture.order_with "Pending" [])] |};
      calls := [ConnectDB; OrderFindOne Fixture.document_id; OrderSave 0;
                SendNotification (payment_notification (Fixture.order_with "Pending" []));
                CartFindOne "U1"; CartSave 0] |},
   Uncaught).
Proof. reflexivity. Qed.

Lemma unconfigured_secret_is_500_witness :
  Fixture.run Fixture.env_unconfigured Fixture.request_signed_with_empty_key
    Fixture.pending_store =
  (Fixture.pending_store,
   Responded (json [("message", "Server configuration error.")] 500)).
Proof.
  apply (unconfigured_secret_is_500 Fixture.digest Fixture.JSON_parse
           Fixture.cast_orderId Fixture.env_unconfigured
           Fixture.request_signed_with_empty_key Fixture.pending_store).
  right. reflexivity.
Defined.

Lemma unknown_order_is_404_witness :
  Fixture.run_document Fixture.env Fixture.document_request Fixture.empty_store =
    ({| world := world Fixture.empty_store;
        calls := [ConnectDB; OrderFindOne Fixture.document_id] |},
     Uncaught) ∧
  Fixture.run Fixture.env Fixture.charge_request Fixture.empty_store =
    ({| world := world Fixture.empty_store;
        calls := [ConnectDB; OrderFindOne (JStr "ORD1")] |},
     Responded (json [("status", "error"); ("message", "Order not found")] 404)).
Proof.
  split.
  - apply (unknown_order_is_404 Fixture.digest Fixture.JSON_parse_document
             Fixture.cast_document Fixture.env Fixture.document_request
             Fixture.empty_store Fixture.document_event "ORD1").
    + by apply fixture_delivers_document.
    + split; reflexivity.
    + reflexivity.
    + reflexivity.
    + reflexivity.
    + reflexivity.
    + intros o Ho. by apply elem_of_nil in Ho.
  - apply (unknown_order_is_404 Fixture.digest Fixture.JSON_parse
             Fixture.cast_orderId Fixture.env Fixture.charge_request
             Fixture.empty_store (Fixture.charge_event "ORD1") "ORD1").
    + apply fixture_delivers. by left.
    + split; reflexivity.
    + reflexivity.
    + reflexivity.
    + reflexivity.
    + reflexivity.
    + intros o Ho. by apply elem_of_nil in Ho.
Defined.

Lemma lookup_failure_is_500_witness :
  (∃ t,
     Fixture.run_document Fixture.env_db_down Fixture.document_request
       Fixture.pending_store =
     ({| world := world Fixture.pending_store; calls := t |}, Uncaught) ∧
     (t = [ConnectDB] ∨ t = [ConnectDB; OrderFindOne Fixture.document_id])) ∧
  (∃ t,
     Fixture.run Fixture.env_db_down Fixture.charge_request Fixture.pending_store =
     ({| world := world Fixture.pending_store; calls := t |},
      Responded
        (json [("message", "Internal server error while updating order.")] 500)) ∧
     (t = [ConnectDB] ∨ t = [ConnectDB; OrderFindOne (JStr "ORD1")])).
Proof.
  split.
  - apply (lookup_failure_is_500 Fixture.digest Fixture.JSON_parse_document
             Fixture.cast_document Fixture.env_db_down Fixture.document_request
             Fixture.pending_store Fixture.document_event).
    + by apply fixture_delivers_document.
    + split; reflexivity.
    + left. reflexivity.
  - apply (lookup_failure_is_500 Fixture.digest Fixture.JSON_parse
             Fixture.cast_orderId Fixture.env_db_down Fixture.charge_request
             Fixture.pending_store (Fixture.charge_event "ORD1")).
    + split; [|reflexivity]. exists "s3cret".
      split_and!; [reflexivity|discriminate|reflexivity].
    + split; reflexivity.
    + left. reflexivity.
Defined.

Lemma failed_save_changes_nothing_witness :
  Fixture.run_document Fixture.env_save_down Fixture.document_request
    Fixture.pending_store =
    ({| world := world Fixture.pending_store;
        calls := [ConnectDB; OrderFindOne Fixture.document_id; OrderSave 0] |},
     Uncaught) ∧
  Fixture.run Fixture.env_save_down Fixture.charge_request Fixture.pending_store =
    ({| world := world Fixture.pending_store;
        calls := [ConnectDB; OrderFindOne (JStr "ORD1"); OrderSave 0] |},
     Responded
       (json [("message", "Internal server error while updating order.")] 500)).
Proof.
  split.
  - apply (failed_save_changes_nothing Fixture.digest Fixture.JSON_parse_document
             Fixture.cast_document Fixture.env_save_down Fixture.document_request
             Fixture.pending_store Fixture.document_event 0
             (Fixture.order_with "Pending" [Fixture.placed; Fixture.confirmed])).
    + by apply fixture_delivers_document.
    + split; reflexivity.
    + reflexivity.
    + exists "ORD1". split; reflexivity.
    + discriminate.
    + reflexivity.
    + reflexivity.
    + reflexivity.
  - apply (failed_save_changes_nothing Fixture.digest Fixture.JSON_parse
             Fixture.cast_orderId Fixture.env_save_down Fixture.charge_request
             Fixture.pending_store (Fixture.charge_event "ORD1") 0
             (Fixture.order_with "Pending" [Fixture.placed; Fixture.confirmed])).
    + split; [|reflexivity]. exists "s3cret".
      split_and!; [reflexivity|discriminate|reflexivity].
    + split; reflexivity.
    + reflexivity.
    + exists "ORD1". split; reflexivity.
    + discriminate.
    + reflexivity.
    + reflexivity.
    + reflexivity.
Defined.

Lemma paid_orders_are_frozen_witness :
  orders (world (Fixture.run Fixture.env Fixture.charge_request
                   Fixture.settled_store).1) !! 0 =
  Some (Fixture.order_with "Completed" [Fixture.placed; Fixture.confirmed]).
Proof.
  apply (paid_orders_are_frozen Fixture.digest Fixture.JSON_parse
           Fixture.cast_orderId Fixture.env Fixture.charge_request
           Fixture.settled_store 0
           (Fixture.order_with "Completed" [Fixture.placed; Fixture.confirmed])).
  - reflexivity.
  - reflexivity.
Defined.

Lemma nothing_changes_unless_order_saved_witness :
  world (Fixture.run Fixture.env_save_down Fixture.charge_request
           Fixture.pending_store).1 =
  world Fixture.pending_store.
Proof.
  apply (nothing_changes_unless_order_saved Fixture.digest Fixture.JSON_parse
           Fixture.cast_orderId Fixture.env_save_down Fixture.charge_request
           Fixture.pending_store).
  reflexivity.
Defined.

Lemma cart_is_emptied_witness :
  (Fixture.run_document Fixture.env Fixture.document_request
     Fixture.pending_store).2 = Uncaught ∧
  (list_find (λ c, Cart.user c = "U1") [Fixture.cart] = None →
   carts (world (Fixture.run_document Fixture.env Fixture.document_request
                   Fixture.pending_store).1) = [Fixture.cart]) ∧
  (∀ cdoc cart,
     list_find (λ c, Cart.user c = "U1") [Fixture.cart] = Some (cdoc, cart) →
     carts (world (Fixture.run_document Fixture.env Fixture.document_request
                     Fixture.pending_store).1) =
       <[cdoc := Cart.mk (Cart.user cart) []]> [Fixture.cart]).
Proof.
  apply (cart_is_emptied Fixture.digest Fixture.JSON_parse_document
           Fixture.cast_document Fixture.env Fixture.document_request
           Fixture.pending_store Fixture.document_event 0
           (Fixture.order_with "Pending" [Fixture.placed; Fixture.confirmed])).
  - by apply fixture_delivers_document.
  - split; reflexivity.
  - reflexivity.
  - exists "ORD1". split; reflexivity.
  - discriminate.
  - reflexivity.
  - reflexivity.
  - reflexivity.
  - reflexivity.
  - reflexivity.
Defined.

Lemma buyer_is_notified_witness :
  outbox (world (Fixture.run Fixture.env_cart_down Fixture.charge_request
                   Fixture.pending_store).1) =
  [{| recipient := "U1";
      n_title := "Payment Received! 💳";
      n_body := "We've successfully received payment for your order #ORD1. It's now being processed.";
      n_url := "/me/orders/ORD1" |}].
Proof.
  apply (buyer_is_notified Fixture.digest Fixture.JSON_parse
           Fixture.cast_orderId Fixture.env_cart_down Fixture.charge_request
           Fixture.pending_store (Fixture.charge_event "ORD1") 0
           (Fixture.order_with "Pending" [Fixture.placed; Fixture.confirmed])).
  - split; [|reflexivity]. exists "s3cret".
    split_and!; [reflexivity|discriminate|reflexivity].
  - split; reflexivity.
  - reflexivity.
  - exists "ORD1". split; reflexivity.
  - discriminate.
  - reflexivity.
  - reflexivity.
  - reflexivity.
  - reflexivity.
Defined.

Lemma saved_order_is_found_again_witness :
  finds Fixture.cast_orderId
    (world (Fixture.run Fixture.env Fixture.charge_request Fixture.pending_store).1)
    (JStr "ORD1") 0
    (apply_charge Fixture.env (JStr "TXN1")
       (Fixture.order_with "Pending" [Fixture.placed; Fixture.confirmed])).
Proof.
  apply (saved_order_is_found_again Fixture.digest Fixture.JSON_parse
           Fixture.cast_orderId Fixture.env Fixture.charge_request
           Fixture.pending_store (Fixture.charge_event "ORD1") 0
           (Fixture.order_with "Pending" [Fixture.placed; Fixture.confirmed])).
  - apply fixture_delivers. by left.
  - split; reflexivity.
  - reflexivity.
  - exists "ORD1". split; reflexivity.
  - discriminate.
  - reflexivity.
  - reflexivity.
  - reflexivity.
Defined.

Lemma redelivery_never_clears_the_cart_witness :
  (Fixture.run Fixture.env_cart_down Fixture.charge_request Fixture.pending_store).2 =
    Responded (json [("message", "Internal server error while updating order.")] 500) ∧
  Fixture.run Fixture.env Fixture.charge_request
    (Fixture.run Fixture.env_cart_down Fixture.charge_request Fixture.pending_store).1 =
    ({| world :=
          world (Fixture.run Fixture.env_cart_down Fixture.charge_request
                   Fixture.pending_store).1;
        calls :=
          calls (Fixture.run Fixture.env_cart_down Fixture.charge_request
                   Fixture.pending_store).1 ++
          [ConnectDB; OrderFindOne (JStr "ORD1")] |},
     Responded (json [("status", "ok")] 200)) ∧
  carts (world (Fixture.run Fixture.env_cart_down Fixture.charge_request
                  Fixture.pending_store).1) = [Fixture.cart].
Proof.
  apply (redelivery_never_clears_the_cart Fixture.digest Fixture.JSON_parse
           Fixture.cast_orderId Fixture.env_cart_down Fixture.env
           Fixture.charge_request Fixture.pending_store
           (Fixture.charge_event "ORD1") 0
           (Fixture.order_with "Pending" [Fixture.placed; Fixture.confirmed])).
  - split; [|reflexivity]. exists "s3cret".
    split_and!; [reflexivity|discriminate|reflexivity].
  - split; reflexivity.
  - reflexivity.
  - exists "ORD1". split; reflexivity.
  - discriminate.
  - reflexivity.
  - reflexivity.
  - reflexivity.
  - left. reflexivity.
  - reflexivity.
  - reflexivity.
  - reflexivity.
Defined.
